(** * GeocodingField: a shallow embedding of
      src/base/static/components/molecules/form-field-types/geocoding-field.tsx

    The component is a React function component.  Its body is embedded as
    follows.
    - JavaScript strings are sequences of UTF-16 code units ([jsstring]).
    - The value a provider answers with is a JSON document ([json]); the
      JavaScript [undefined] is the [None] of [jsval].
    - The two [useState] cells and the [useRef] cell are the record [cells].
    - Every handler, effect body and promise continuation is a computation in
      the monad [M]: it reads and writes the cells, may throw, and appends the
      actions it performs (cell writes, fetch, emit, setTimeout, ...) to a log,
      in program order.
    - The host (React, the promise queue, the timer queue) is the transition
      system [step] on configurations ([config]). *)

From Stdlib Require Import List String Ascii NArith ZArith Bool Lia DecimalString.
Import ListNotations.

Set Implicit Arguments.
Set Warnings "-register-all".

(** ** JavaScript strings *)

Definition jsstring := list N.

(** A string literal of the source (all of them are ASCII). *)
Definition lit (s : string) : jsstring :=
  map N_of_ascii (list_ascii_of_string s).

Arguments lit : simpl never.

Definition jsstring_eqb (a b : jsstring) : bool :=
  if list_eq_dec N.eq_dec a b then true else false.

(** *** encodeURIComponent (ECMA-262, Encode with the unreserved set
    [A-Z a-z 0-9 - _ . ! ~ * ' ( )]) *)

Module URI.

Local Open Scope N_scope.

Definition between (lo hi u : N) : bool := (lo <=? u) && (u <=? hi).

Definition uriUnreserved (u : N) : bool :=
  between 65 90 u || between 97 122 u || between 48 57 u
  || existsb (N.eqb u) [45; 95; 46; 33; 126; 42; 39; 40; 41].

Definition isLeadSurrogate (u : N) : bool := between 55296 56319 u.
Definition isTrailSurrogate (u : N) : bool := between 56320 57343 u.

(** UTF-8 octets of a code point. *)
Definition utf8 (cp : N) : list N :=
  let cont (k : N) := N.lor 128 (N.land (N.shiftr cp k) 63) in
  if cp <? 128 then [cp]
  else if cp <? 2048 then [N.lor 192 (N.shiftr cp 6); cont 0]
  else if cp <? 65536 then [N.lor 224 (N.shiftr cp 12); cont 6; cont 0]
  else [N.lor 240 (N.shiftr cp 18); cont 12; cont 6; cont 0].

Definition hexDigit (d : N) : N :=
  nth (N.to_nat d) (lit "0123456789ABCDEF") 0.

Definition percent (octet : N) : jsstring :=
  [37; hexDigit (N.shiftr octet 4); hexDigit (N.land octet 15)].

Definition escape (cp : N) : jsstring := flat_map percent (utf8 cp).

(** [None] is the URIError thrown on a lone surrogate. *)
Fixpoint encodeURIComponent (s : jsstring) : option jsstring :=
  match s with
  | [] => Some []
  | u :: rest =>
      if uriUnreserved u then option_map (cons u) (encodeURIComponent rest)
      else if isTrailSurrogate u then None
      else if isLeadSurrogate u then
        match rest with
        | lo :: rest' =>
            if isTrailSurrogate lo then
              let cp := (u - 55296) * 1024 + (lo - 56320) + 65536 in
              option_map (app (escape cp)) (encodeURIComponent rest')
            else None
        | [] => None
        end
      else option_map (app (escape u)) (encodeURIComponent rest)
  end.

End URI.

(** ** What the build and the JavaScript engine provide

    [num] is the ECMAScript Number type; the component only tests numbers for
    truthiness and prints them into URLs.  [MAP_PROVIDER_TOKEN] is the global
    the source declares with [declare const]. *)

Class Platform := {
  num : Type;
  num_truthy : num -> bool;
  num_to_string : num -> jsstring;
  MAP_PROVIDER_TOKEN : jsstring
}.

Declare Scope M_scope.
Delimit Scope M_scope with M.

Section Model.

Context {P : Platform}.

(** ** JSON documents and JavaScript values *)

Inductive json :=
| JNull
| JBool (b : bool)
| JNum (n : num)
| JStr (s : jsstring)
| JArr (items : list json)
| JObj (members : list (jsstring * json)).

(** [None] is [undefined]. *)
Definition jsval := option json.

(** ToBoolean. *)
Definition truthy (v : jsval) : bool :=
  match v with
  | None | Some JNull => false
  | Some (JBool b) => b
  | Some (JNum n) => num_truthy n
  | Some (JStr s) => negb (jsstring_eqb s [])
  | Some (JArr _) | Some (JObj _) => true
  end.

Inductive jserror := FetchFailed | JsonSyntaxError | TypeError | URIError.

(** Own property of a parsed object; of two members with one key
    JSON.parse keeps the later. *)
Fixpoint member (key : jsstring) (ms : list (jsstring * json)) : jsval :=
  match ms with
  | [] => None
  | (k, v) :: rest =>
      match member key rest with
      | Some v' => Some v'
      | None => if jsstring_eqb k key then Some v else None
      end
  end.

(** [v.key], for the keys the component reads ([features], [geometry],
    [coordinates], [place_name]): none of them names a property of a
    primitive, of an array or of Object.prototype. *)
Definition getField (v : jsval) (key : string) : jserror + jsval :=
  match v with
  | None | Some JNull => inl TypeError
  | Some (JObj ms) => inr (member (lit key) ms)
  | Some _ => inr None
  end.

Definition indexKey (i : nat) : jsstring :=
  lit (DecimalString.NilZero.string_of_uint (Nat.to_uint i)).

(** [v[i]] for a literal index [i]. *)
Definition getIndex (v : jsval) (i : nat) : jserror + jsval :=
  match v with
  | None | Some JNull => inl TypeError
  | Some (JArr items) => inr (nth_error items i)
  | Some (JStr s) => inr (option_map (fun u => JStr [u]) (nth_error s i))
  | Some (JObj ms) => inr (member (indexKey i) ms)
  | Some _ => inr None
  end.

(** [data.features && data.features[0] && data.features[0][key]] *)
Definition firstFeature (key : string) (data : json) : jserror + jsval :=
  match getField (Some data) "features" with
  | inl e => inl e
  | inr features =>
      if truthy features then
        match getIndex features 0 with
        | inl e => inl e
        | inr first => if truthy first then getField first key else inr first
        end
      else inr features
  end.

(** ** Component state, props and actions *)

(** [isGeocoding] and [isWithGeocodingError] are the [useState] cells,
    [isMounted] is [isMounted.current]. *)
Record cells := {
  isGeocoding : bool;
  isWithGeocodingError : bool;
  isMounted : bool
}.

Definition initialCells : cells :=
  {| isGeocoding := false; isWithGeocodingError := false; isMounted := true |}.

(** A JavaScript object with its identity, which is what a dependency
    array compares. *)
Record object (A : Type) := { identity : N; fields : A }.

(** Modelled from the spec: the type [MapViewport] is declared in
    state/ducks/map, which is not among the sources; the viewport holds the
    current map centre, of which the component reads [latitude] and
    [longitude]. *)
Record MapViewport := { latitude : num; longitude : num }.

(** Modelled from the spec: the type [MapConfig] is declared in
    state/ducks/map as well; the component reads an optional proximity hint
    and an optional bounding box from it, both arrays of numbers that it
    joins with commas. *)
Record MapConfig := {
  geocodeBoundingBox : option (object (list num));
  geocodeHint : option (object (list num))
}.

Record OwnProps := {
  name : jsstring;
  value : jsstring;
  isTriggeringGeocode : bool
}.

Record StateProps := {
  mapViewport : object MapViewport;
  mapConfig : MapConfig;
  isMapDraggingOrZooming : bool
}.

Record Props := { own : OwnProps; connected : StateProps }.

Inductive continuation :=
| ForwardGeocode
| ReverseGeocode (fieldName : jsstring).

Inductive httpMethod := GET | HEAD | POST | PUT | DELETE.

Record SetMapViewport := {
  payloadLatitude : jsval;
  payloadLongitude : jsval;
  zoom : N;
  transitionDuration : N
}.

(** What a handler does, in program order.  [Emit] is a call of
    [eventEmitter.emit], [OnChange] a call of the [onChange] the form passed
    in (taken not to throw), [Uncaught] an exception that leaves a handler. *)
Inductive action :=
| SetIsGeocoding (b : bool)
| SetIsWithGeocodingError (b : bool)
| SetIsMounted (b : bool)
| Fetch (method : httpMethod) (url : jsstring) (k : continuation)
| Emit (eventName : jsstring) (payload : SetMapViewport)
| OnChange (fieldName : jsstring) (newValue : jsval)
| ConsoleError (message : jsstring) (err : jserror)
| SetTimeout (delay : N)
| Uncaught (err : jserror).

(** ** The handler monad: cells, exceptions, action log *)

Definition M (A : Type) : Type := cells -> (jserror + A) * cells * list action.

Definition result {A} (r : (jserror + A) * cells * list action) := fst (fst r).
Definition final {A} (r : (jserror + A) * cells * list action) := snd (fst r).
Definition log {A} (r : (jserror + A) * cells * list action) := snd r.

Definition ret {A} (a : A) : M A := fun s => (inr a, s, []).

Definition bind {A B} (m : M A) (f : A -> M B) : M B :=
  fun s =>
    match m s with
    | (inl e, s1, l1) => (inl e, s1, l1)
    | (inr a, s1, l1) =>
        match f a s1 with
        | (r, s2, l2) => (r, s2, l1 ++ l2)
        end
    end.

Definition lift {A} (r : jserror + A) : M A := fun s => (r, s, []).

Definition tell (a : action) : M unit := fun s => (inr tt, s, [a]).

(** [promise.then(h).catch(c)] for a synchronous [h]: what [h] wrote
    before it threw stays written. *)
Definition catch (m : M unit) (h : jserror -> M unit) : M unit :=
  fun s =>
    match m s with
    | (inl e, s1, l1) =>
        match h e s1 with
        | (r, s2, l2) => (r, s2, l1 ++ l2)
        end
    | r => r
    end.

Definition setIsGeocoding (b : bool) : M unit :=
  fun s =>
    (inr tt,
     {| isGeocoding := b;
        isWithGeocodingError := isWithGeocodingError s;
        isMounted := isMounted s |},
     [SetIsGeocoding b]).

Definition setIsWithGeocodingError (b : bool) : M unit :=
  fun s =>
    (inr tt,
     {| isGeocoding := isGeocoding s;
        isWithGeocodingError := b;
        isMounted := isMounted s |},
     [SetIsWithGeocodingError b]).

Definition setIsMounted (b : bool) : M unit :=
  fun s =>
    (inr tt,
     {| isGeocoding := isGeocoding s;
        isWithGeocodingError := isWithGeocodingError s;
        isMounted := b |},
     [SetIsMounted b]).

Definition readIsMounted : M bool := fun s => (inr (isMounted s), s, []).

End Model.

Notation "x <- m ;; k" := (bind m (fun x => k))
  (at level 61, m at next level, right associativity) : M_scope.
Notation "m ;; k" := (bind m (fun _ => k))
  (at level 61, right associativity) : M_scope.

(** ** The component *)

Section Component.

Context {P : Platform}.

Local Open Scope M_scope.

(** [fetch(url)]: no init argument, hence a GET. *)
Definition fetch (url : jsstring) (k : continuation) : M unit :=
  tell (Fetch GET url k).

(** [Array.prototype.join] on an array of numbers. *)
Fixpoint join (sep : jsstring) (xs : list num) : jsstring :=
  match xs with
  | [] => []
  | x :: rest =>
      match rest with
      | [] => num_to_string x
      | _ :: _ => num_to_string x ++ sep ++ join sep rest
      end
  end.

Definition placesEndpoint : jsstring :=
  lit "https://api.mapbox.com/geocoding/v5/mapbox.places/".

(** The template literal of [doGeocode] after its first hole is filled. *)
Definition forwardUrlOf (query : jsstring) (cfg : MapConfig) : jsstring :=
  placesEndpoint ++ query ++ lit ".json?access_token=" ++ MAP_PROVIDER_TOKEN
  ++ match geocodeHint cfg with
     | Some hint => lit "&proximity=" ++ join (lit ",") (fields hint)
     | None => []
     end
  ++ match geocodeBoundingBox cfg with
     | Some bbox => lit "&bbox=" ++ join (lit ",") (fields bbox)
     | None => []
     end.

Definition forwardUrl (p : Props) : jserror + jsstring :=
  match URI.encodeURIComponent (value (own p)) with
  | Some query => inr (forwardUrlOf query (mapConfig (connected p)))
  | None => inl URIError
  end.

Definition doGeocode (p : Props) : M unit :=
  setIsGeocoding true ;;
  setIsWithGeocodingError false ;;
  url <- lift (forwardUrl p) ;;
  fetch url ForwardGeocode.

Definition locationGeometry (data : json) : jserror + jsval :=
  firstFeature "geometry" data.

(** The object literal handed to [eventEmitter.emit]; [latitude] is evaluated
    before [longitude]. *)
Definition viewportPayload (geometry : jsval) : jserror + SetMapViewport :=
  match getField geometry "coordinates" with
  | inl e => inl e
  | inr coordinates =>
      match getIndex coordinates 1 with
      | inl e => inl e
      | inr lat =>
          match getIndex coordinates 0 with
          | inl e => inl e
          | inr lng =>
              inr {| payloadLatitude := lat;
                     payloadLongitude := lng;
                     zoom := 14;
                     transitionDuration := 1000 |}
          end
      end
  end.

(** The second [.then] of [doGeocode]. *)
Definition forwardThen (data : json) : M unit :=
  geometry <- lift (locationGeometry data) ;;
  mounted <- readIsMounted ;;
  if truthy geometry && mounted then
    setIsGeocoding false ;;
    setIsWithGeocodingError false ;;
    payload <- lift (viewportPayload geometry) ;;
    tell (Emit (lit "setMapViewport") payload)
  else if mounted then
    setIsGeocoding false ;;
    setIsWithGeocodingError true
  else ret tt.

(** The [.catch] of [doGeocode]. *)
Definition forwardCatch (err : jserror) : M unit :=
  mounted <- readIsMounted ;;
  (if mounted then
     setIsGeocoding false ;;
     setIsWithGeocodingError true
   else ret tt) ;;
  tell (ConsoleError (lit "There was an error while geocoding: ") err).

Definition reverseUrlOf (vp : MapViewport) : jsstring :=
  placesEndpoint ++ num_to_string (longitude vp) ++ lit ","
  ++ num_to_string (latitude vp) ++ lit ".json?access_token="
  ++ MAP_PROVIDER_TOKEN.

(** Body of the effect with dependencies
    [[mapViewport, isMapDraggingOrZooming]]. *)
Definition reverseGeocodeEffect (p : Props) : M unit :=
  if isMapDraggingOrZooming (connected p) then ret tt
  else
    setIsGeocoding true ;;
    fetch (reverseUrlOf (fields (mapViewport (connected p))))
          (ReverseGeocode (name (own p))).

Definition placeName (data : json) : jserror + jsval :=
  firstFeature "place_name" data.

(** The second [.then] of the reverse geocode; [fieldName] is the [name] the
    closure captured. *)
Definition reverseThen (fieldName : jsstring) (data : json) : M unit :=
  place <- lift (placeName data) ;;
  mounted <- readIsMounted ;;
  if truthy place && mounted then
    setIsGeocoding false ;;
    setIsWithGeocodingError false ;;
    tell (OnChange fieldName place)
  else if mounted then
    setIsGeocoding false ;;
    setIsWithGeocodingError true
  else ret tt.

Definition reverseCatch (err : jserror) : M unit :=
  mounted <- readIsMounted ;;
  (if mounted then
     setIsGeocoding false ;;
     setIsWithGeocodingError true
   else ret tt) ;;
  tell (ConsoleError (lit "There was an error while reverse geocoding: ") err).

(** Body of the effect with dependencies [[isTriggeringGeocode, doGeocode]]. *)
Definition triggerEffect (p : Props) : M unit :=
  if isTriggeringGeocode (own p) then doGeocode p else ret tt.

(** Body of the effect with dependencies [[isWithGeocodingError]]; the
    argument is the value the render closed over. *)
Definition errorTimerEffect (isWithGeocodingError : bool) : M unit :=
  if isWithGeocodingError then tell (SetTimeout 5000) else ret tt.

(** The callback handed to [setTimeout]. *)
Definition errorTimerCallback : M unit := setIsWithGeocodingError false.

(** The cleanup returned by the effect with no dependencies. *)
Definition unmountCleanup : M unit := setIsMounted false.

(** *** Settlement of a request *)

(** [fetch(url).then(response => response.json())] either rejects or yields
    a document. *)
Inductive outcome :=
| Rejected (err : jserror)
| Resolved (data : json).

Definition thenHandler (k : continuation) (data : json) : M unit :=
  match k with
  | ForwardGeocode => forwardThen data
  | ReverseGeocode fieldName => reverseThen fieldName data
  end.

Definition catchHandler (k : continuation) (err : jserror) : M unit :=
  match k with
  | ForwardGeocode => forwardCatch err
  | ReverseGeocode _ => reverseCatch err
  end.

(** The whole chain [.then(...).catch(...)] on a settled request. *)
Definition settle (k : continuation) (o : outcome) : M unit :=
  match o with
  | Rejected err => catchHandler k err
  | Resolved data => catch (thenHandler k data) (catchHandler k)
  end.

(** *** Render *)

Record TextInput := {
  inputName : jsstring;
  ariaLabel : jsstring;
  inputValue : jsstring;
  onBlur : M unit;
  onChange : jsstring -> jsstring -> M unit
}.

(** What the component returns: the spinner, the search button with its
    [onClick], the text input, the opacity of the error banner.  Styling,
    the translated placeholder and the optional [onKeyDown] are left out. *)
Record view := {
  spinner : bool;
  button : option (M unit);
  textInput : TextInput;
  bannerOpacity : N
}.

Definition render (p : Props) (s : cells) : view :=
  {| spinner := isGeocoding s;
     button := if negb (isGeocoding s) then Some (doGeocode p) else None;
     textInput :=
       {| inputName := name (own p);
          ariaLabel := lit "Search by address";
          inputValue := value (own p);
          onBlur := doGeocode p;
          onChange := fun targetName targetValue =>
                        tell (OnChange targetName (Some (JStr targetValue))) |};
     bannerOpacity := if isWithGeocodingError s then 1 else 0 |}.

End Component.

(** ** The host: renders, effects, pending requests and timers

    A configuration is the component between two events.  [rendered] holds
    the dependency values of the last render, against which the next render
    decides which effects run.  The host renders after every handler; as no
    handler of the component writes [isWithGeocodingError] twice, this runs
    the same effects as a render after every single write. *)

Section Host.

Context {P : Platform}.

Local Open Scope M_scope.

Record deps := {
  depViewport : N;
  depDragging : bool;
  depTrigger : bool;
  depValue : jsstring;
  depBoundingBox : option N;
  depHint : option N;
  depError : bool
}.

Record config := {
  props : Props;
  state : cells;
  rendered : deps;
  inflight : list continuation;
  timers : list N;
  clock : N
}.

Definition depsOf (p : Props) (s : cells) : deps :=
  {| depViewport := identity (mapViewport (connected p));
     depDragging := isMapDraggingOrZooming (connected p);
     depTrigger := isTriggeringGeocode (own p);
     depValue := value (own p);
     depBoundingBox :=
       option_map (@identity _) (geocodeBoundingBox (mapConfig (connected p)));
     depHint := option_map (@identity _) (geocodeHint (mapConfig (connected p)));
     depError := isWithGeocodingError s |}.

Definition sameIdentity (a b : option N) : bool :=
  match a, b with
  | Some x, Some y => (x =? y)%N
  | None, None => true
  | _, _ => false
  end.

(** [[mapViewport, isMapDraggingOrZooming]] *)
Definition reverseDepsChanged (a b : deps) : bool :=
  negb (depViewport a =? depViewport b)%N
  || xorb (depDragging a) (depDragging b).

(** [[isTriggeringGeocode, doGeocode]], where [doGeocode] is memoised on
    [[value, geocodeBoundingBox, geocodeHint]]. *)
Definition triggerDepsChanged (a b : deps) : bool :=
  xorb (depTrigger a) (depTrigger b)
  || negb (jsstring_eqb (depValue a) (depValue b))
  || negb (sameIdentity (depBoundingBox a) (depBoundingBox b))
  || negb (sameIdentity (depHint a) (depHint b)).

(** [[isWithGeocodingError]] *)
Definition errorDepsChanged (a b : deps) : bool :=
  xorb (depError a) (depError b).

Definition transition : Type := config * list action.

Definition andThen (t : transition) (f : config -> transition) : transition :=
  (fst (f (fst t)), snd t ++ snd (f (fst t))).

Definition requestsOf (l : list action) : list continuation :=
  flat_map (fun a => match a with Fetch _ _ k => [k] | _ => [] end) l.

Definition timeoutsOf (now : N) (l : list action) : list N :=
  flat_map (fun a => match a with SetTimeout d => [(now + d)%N] | _ => [] end) l.

(** Take over what a handler did: its writes, its requests, its timers. *)
Definition install (c : config) (r : (jserror + unit) * cells * list action)
  : config :=
  {| props := props c;
     state := final r;
     rendered := rendered c;
     inflight := inflight c ++ requestsOf (log r);
     timers := timers c ++ timeoutsOf (clock c) (log r);
     clock := clock c |}.

(** An event handler or callback; what it throws reaches the console. *)
Definition runHandler (m : M unit) (c : config) : transition :=
  let r := m (state c) in
  (install c r,
   log r ++ match result r with inl e => [Uncaught e] | inr _ => [] end).

(** Effect bodies; when one throws the host tears the component down, which
    runs the cleanup. *)
Definition runEffects (m : M unit) (c : config) : transition :=
  let r := m (state c) in
  match result r with
  | inr _ => (install c r, log r)
  | inl e => andThen (install c r, log r ++ [Uncaught e]) (runHandler unmountCleanup)
  end.

Definition withRendered (c : config) (d : deps) : config :=
  {| props := props c; state := state c; rendered := d;
     inflight := inflight c; timers := timers c; clock := clock c |}.

Definition withProps (c : config) (p : Props) : config :=
  {| props := p; state := state c; rendered := rendered c;
     inflight := inflight c; timers := timers c; clock := clock c |}.

(** The effects of one render, in the order the source declares them; the
    booleans say whose dependencies changed, [isWithGeocodingError] is the
    value the render closed over. *)
Definition effectsOf (reverseDue triggerDue timerDue : bool) (p : Props)
    (isWithGeocodingError : bool) : M unit :=
  (if reverseDue then reverseGeocodeEffect p else ret tt) ;;
  (if triggerDue then triggerEffect p else ret tt) ;;
  (if timerDue then errorTimerEffect isWithGeocodingError else ret tt).

(** One render of a mounted component followed by the effects whose
    dependencies changed. *)
Definition commit (c : config) : transition :=
  if isMounted (state c) then
    let before := rendered c in
    let now := depsOf (props c) (state c) in
    runEffects
      (effectsOf (reverseDepsChanged before now)
                 (triggerDepsChanged before now)
                 (errorDepsChanged before now)
                 (props c) (depError now))
      (withRendered c now)
  else (c, []).

(** Effects write cells, so a second render follows; a third one would find
    nothing changed. *)
Definition flush (c : config) : transition := andThen (commit c) commit.

(** First render: every effect runs. *)
Definition mount (p : Props) : transition :=
  andThen
    (runEffects
       (effectsOf true true true p (isWithGeocodingError initialCells))
       {| props := p; state := initialCells;
          rendered := depsOf p initialCells;
          inflight := []; timers := []; clock := 0 |})
    commit.

Inductive event :=
| Click
| Blur
| InputChange (text : jsstring)
| OwnPropsChange (o : OwnProps)
| ViewportUpdate (vp : object MapViewport) (dragging : bool)
| Settle (i : nat) (o : outcome)
| Advance (dt : N)
| Unmount.

(** The props after the store publishes a viewport and a drag/zoom flag. *)
Definition withViewport (p : Props) (vp : object MapViewport)
    (dragging : bool) : Props :=
  {| own := own p;
     connected :=
       {| mapViewport := vp;
          mapConfig := mapConfig (connected p);
          isMapDraggingOrZooming := dragging |} |}.

Definition dropRequest (i : nat) (c : config) : config :=
  {| props := props c; state := state c; rendered := rendered c;
     inflight := firstn i (inflight c) ++ skipn (S i) (inflight c);
     timers := timers c; clock := clock c |}.

(** [.then] and [.catch] run as separate jobs, each followed by a render. *)
Definition settleRequest (k : continuation) (o : outcome) (c : config)
  : transition :=
  match o with
  | Rejected err => andThen (runHandler (catchHandler k err) c) flush
  | Resolved data =>
      let r := thenHandler k data (state c) in
      andThen (andThen (install c r, log r) flush)
        (fun c1 =>
           match result r with
           | inl err => andThen (runHandler (catchHandler k err) c1) flush
           | inr _ => (c1, [])
           end)
  end.

Fixpoint fireTimers (n : nat) (c : config) : transition :=
  match n with
  | O => (c, [])
  | S n' => andThen (andThen (runHandler errorTimerCallback c) flush)
                    (fireTimers n')
  end.

(** Time passes; the timers that are due fire, mounted or not: nothing in the
    source clears them.  Their callback never arms a timer, so the clock they
    would read does not matter. *)
Definition advance (dt : N) (c : config) : transition :=
  let now := (clock c + dt)%N in
  fireTimers
    (List.length (filter (fun t => (t <=? now)%N) (timers c)))
    {| props := props c; state := state c; rendered := rendered c;
       inflight := inflight c;
       timers := filter (fun t => negb (t <=? now)%N) (timers c);
       clock := now |}.

Definition step (e : event) (c : config) : transition :=
  match e with
  | Click =>
      if isMounted (state c) then
        match button (render (props c) (state c)) with
        | Some onClick => andThen (runHandler onClick c) flush
        | None => (c, [])
        end
      else (c, [])
  | Blur =>
      if isMounted (state c) then
        andThen
          (runHandler (onBlur (textInput (render (props c) (state c)))) c)
          flush
      else (c, [])
  | InputChange text =>
      if isMounted (state c) then
        let input := textInput (render (props c) (state c)) in
        andThen (runHandler (onChange input (inputName input) text) c) flush
      else (c, [])
  | OwnPropsChange o =>
      if isMounted (state c) then
        flush (withProps c {| own := o; connected := connected (props c) |})
      else (c, [])
  | ViewportUpdate vp dragging =>
      if isMounted (state c) then
        flush (withProps c (withViewport (props c) vp dragging))
      else (c, [])
  | Settle i o =>
      match nth_error (inflight c) i with
      | Some k => settleRequest k o (dropRequest i c)
      | None => (c, [])
      end
  | Advance dt => advance dt c
  | Unmount =>
      if isMounted (state c) then runHandler unmountCleanup c else (c, [])
  end.

Fixpoint run (es : list event) (c : config) : transition :=
  match es with
  | [] => (c, [])
  | e :: rest => andThen (step e c) (run rest)
  end.

Inductive reachable : config -> Prop :=
| reachable_mount (p : Props) : reachable (fst (mount p))
| reachable_step (e : event) (c : config) :
    reachable c -> reachable (fst (step e c)).

Definition fetches (l : list action) : list action :=
  filter (fun a => match a with Fetch _ _ _ => true | _ => false end) l.

Definition emits (l : list action) : list action :=
  filter (fun a => match a with Emit _ _ => true | _ => false end) l.

Definition cellWrites (l : list action) : list action :=
  filter (fun a => match a with
                   | SetIsGeocoding _ | SetIsWithGeocodingError _
                   | SetIsMounted _ => true
                   | _ => false
                   end) l.

Definition mountWrites (l : list action) : list action :=
  filter (fun a => match a with SetIsMounted _ => true | _ => false end) l.

End Host.

(** ** Vocabulary of the specification *)

Section Vocabulary.

Context {P : Platform}.

(** How a settled lookup ends: with a result, with a well-formed response
    that has no usable feature, or with a failure (a rejected request, or a
    response the continuation throws on). *)
Inductive verdict := Found | NotFound | Failed.

Definition classify (k : continuation) (o : outcome) : verdict :=
  match o with
  | Rejected _ => Failed
  | Resolved data =>
      match k with
      | ForwardGeocode =>
          match locationGeometry data with
          | inl _ => Failed
          | inr geometry =>
              if truthy geometry then
                match viewportPayload geometry with
                | inl _ => Failed
                | inr _ => Found
                end
              else NotFound
          end
      | ReverseGeocode _ =>
          match placeName data with
          | inl _ => Failed
          | inr place => if truthy place then Found else NotFound
          end
      end
  end.

(** The coordinates of a valid first feature: [features] is an array whose
    first element is an object with a [geometry] object that has a
    [coordinates] array. *)
Definition featureCoordinates (data : json) : option (list json) :=
  match data with
  | JObj ms =>
      match member (lit "features") ms with
      | Some (JArr (JObj feature :: _)) =>
          match member (lit "geometry") feature with
          | Some (JObj geometry) =>
              match member (lit "coordinates") geometry with
              | Some (JArr coordinates) => Some coordinates
              | _ => None
              end
          | _ => None
          end
      | _ => None
      end
  | _ => None
  end.

(** The forward request of the interface description:
    [.../mapbox.places/{urlEncodedQuery}.json?access_token={token}
     [&proximity={lng},{lat}][&bbox={w},{s},{e},{n}]] *)
Definition specForwardUrl (urlEncodedQuery : jsstring)
    (hint : option (num * num)) (bbox : option (num * num * num * num))
  : jsstring :=
  lit "https://api.mapbox.com/geocoding/v5/mapbox.places/"
  ++ urlEncodedQuery ++ lit ".json?access_token=" ++ MAP_PROVIDER_TOKEN
  ++ match hint with
     | Some (lng, lat) =>
         lit "&proximity=" ++ num_to_string lng ++ lit "," ++ num_to_string lat
     | None => []
     end
  ++ match bbox with
     | Some (w, s, e, n) =>
         lit "&bbox=" ++ num_to_string w ++ lit "," ++ num_to_string s
         ++ lit "," ++ num_to_string e ++ lit "," ++ num_to_string n
     | None => []
     end.

(** The reverse request of the interface description:
    [.../mapbox.places/{lng},{lat}.json?access_token={token}] *)
Definition specReverseUrl (lng lat : num) : jsstring :=
  lit "https://api.mapbox.com/geocoding/v5/mapbox.places/"
  ++ num_to_string lng ++ lit "," ++ num_to_string lat
  ++ lit ".json?access_token=" ++ MAP_PROVIDER_TOKEN.

Definition hintArray (hint : num * num) : list num :=
  [fst hint; snd hint].

Definition bboxArray (bbox : num * num * num * num) : list num :=
  match bbox with (w, s, e, n) => [w; s; e; n] end.

(** The component at rest: the last render saw the current props and
    cells. *)
Definition settled (c : config) : Prop :=
  isMounted (state c) = true -> rendered c = depsOf (props c) (state c).

(** The cells with both flags replaced. *)
Definition withFlags (s : cells) (loading error : bool) : cells :=
  {| isGeocoding := loading;
     isWithGeocodingError := error;
     isMounted := isMounted s |}.

(** A computation that does not write [isMounted.current]. *)
Definition preservesMount (m : M unit) : Prop :=
  forall s, isMounted (final (m s)) = isMounted s
            /\ mountWrites (log (m s)) = [].

(** A transition writes [isMounted.current] at most once, to [false], and
    only when it tears a mounted component down. *)
Definition tearsDownOnce (c : config) (t : transition) : Prop :=
  mountWrites (snd t)
  = (if isMounted (state c) && negb (isMounted (state (fst t)))
     then [SetIsMounted false] else [])
  /\ (isMounted (state c) = false -> isMounted (state (fst t)) = false).

(** The configuration [c] once its cells have become [s'] and the renders
    that follow have run, arming the banner timer or not. *)
Definition atRest (c : config) (s' : cells) (arm : bool) : config :=
  {| props := props c;
     state := s';
     rendered := depsOf (props c) s';
     inflight := inflight c;
     timers := timers c ++ if arm then [(clock c + 5000)%N] else [];
     clock := clock c |}.

(** Whether the search button is on the page. *)
Definition buttonShown (v : view) : bool :=
  match button v with Some _ => true | None => false end.

(** A log that holds nothing but console output. *)
Definition consoleOnly (l : list action) : bool :=
  forallb (fun a => match a with ConsoleError _ _ => true | _ => false end) l.

(** The error state every failing lookup ends in. *)
Definition errorShown : cells :=
  {| isGeocoding := false; isWithGeocodingError := true; isMounted := true |}.

End Vocabulary.

(** ** A concrete platform and concrete runs *)

Module Demo.

(** Integers stand in for numbers. *)
#[local] Instance platform : Platform :=
  {| num := Z;
     num_truthy := fun z => negb (z =? 0)%Z;
     num_to_string := fun z => lit (NilZero.string_of_int (Z.to_int z));
     MAP_PROVIDER_TOKEN := lit "pk.test" |}.

Definition viewport (id : N) (lat lng : Z) : object (@MapViewport platform) :=
  {| identity := id; fields := {| latitude := lat; longitude := lng |} |}.

Definition field (text : string) : OwnProps :=
  {| name := lit "address"; value := lit text; isTriggeringGeocode := false |}.

(** A field holding "123 Main St" over a map at rest or being dragged,
    without hint or bounding box. *)
Definition props (dragging : bool) : @Props platform :=
  {| own := field "123 Main St";
     connected :=
       {| mapViewport := viewport 1 47 (-122);
          mapConfig := {| geocodeBoundingBox := None; geocodeHint := None |};
          isMapDraggingOrZooming := dragging |} |}.

Definition configured : @MapConfig platform :=
  {| geocodeBoundingBox :=
       Some {| identity := 7; fields := [-123; 46; -121; 48]%Z |};
     geocodeHint := Some {| identity := 8; fields := [-122; 47]%Z |} |}.

Definition feature (members : list (jsstring * @json platform)) : @json platform :=
  JObj [(lit "features", JArr [JObj members])].

(** A response with one feature at longitude -122, latitude 47. *)
Definition found : @json platform :=
  feature
    [(lit "place_name", JStr (lit "123 Main St, Seattle"));
     (lit "geometry",
      JObj [(lit "type", JStr (lit "Point"));
            (lit "coordinates", JArr [JNum (-122)%Z; JNum 47%Z])])].

(** A response with an empty [features] array. *)
Definition notFound : @json platform := JObj [(lit "features", JArr [])].

Definition loading : cells :=
  {| isGeocoding := true; isWithGeocodingError := false; isMounted := true |}.

Definition unmountedLoading : cells :=
  {| isGeocoding := true; isWithGeocodingError := false; isMounted := false |}.

Definition mounted (dragging : bool) : @config platform :=
  fst (mount (props dragging)).

(** The same field with a hint and a bounding box configured. *)
Definition configuredProps : @Props platform :=
  {| own := field "123 Main St";
     connected :=
       {| mapViewport := viewport 1 47 (-122);
          mapConfig := configured;
          isMapDraggingOrZooming := true |} |}.

(** The input loses focus: a forward lookup is under way. *)
Definition searching : @config platform := fst (step Blur (mounted true)).

(** The lookup finds nothing: the banner is shown at time 0. *)
Definition failedOnce : @config platform :=
  fst (step (Settle 0 (Resolved notFound)) searching).

(** A second later the input loses focus again, which hides the banner. *)
Definition restarted : @config platform :=
  fst (run [Advance 1000; Blur] failedOnce).

(** The second lookup finds nothing either: the banner is shown again, at
    time 1000, while the timer of the first failure is still pending. *)
Definition failedTwice : @config platform :=
  fst (step (Settle 0 (Resolved notFound)) restarted).

(** The component goes away while the banner of [failedOnce] is shown. *)
Definition unmountedWithBanner : @config platform :=
  fst (step Unmount failedOnce).

(** The component goes away while the first lookup is under way. *)
Definition unmountedSearching : @config platform :=
  fst (step Unmount searching).

End Demo.

(** ** Vocabulary of the further properties *)

Section Coverage.

Context {P : Platform}.

(** A JavaScript string: every code unit is below 2^16. *)
Definition codeUnits (s : jsstring) : Prop :=
  Forall (fun u => (u < 65536)%N) s.

(** An unreserved character or the percent sign. *)
Definition urlSafe (u : N) : bool := URI.uriUnreserved u || (u =? 37)%N.

Definition isSurrogate (u : N) : bool :=
  URI.isLeadSurrogate u || URI.isTrailSurrogate u.

Definition consoleErrors (l : list action) : list action :=
  filter (fun a => match a with ConsoleError _ _ => true | _ => false end) l.

Definition onChanges (l : list action) : list action :=
  filter (fun a => match a with OnChange _ _ => true | _ => false end) l.

(** What may still happen once the component is gone: console output and the
    banner timer clearing its flag. *)
Definition afterlife (l : list action) : bool :=
  forallb (fun a => match a with
                    | ConsoleError _ _ | SetIsWithGeocodingError false => true
                    | _ => false
                    end) l.

(** Every pending timer is due later than now and at most 5000ms from now. *)
Definition timersDueSoon (c : config) : Prop :=
  Forall (fun t => (clock c < t <= clock c + 5000)%N) (timers c).

(** If the last render showed the banner, a timer is pending. *)
Definition bannerHasTimer (c : config) : Prop :=
  isMounted (state c) = true ->
  depError (rendered c) = true ->
  timers c <> [].

(** Every [setTimeout] of a log has the delay 5000. *)
Definition delays5000 (l : list action) : Prop :=
  Forall (fun a => match a with SetTimeout d => d = 5000%N | _ => True end) l.

(** The prefix [console.error] is called with. *)
Definition catchMessage (k : continuation) : jsstring :=
  match k with
  | ForwardGeocode => lit "There was an error while geocoding: "
  | ReverseGeocode _ => lit "There was an error while reverse geocoding: "
  end.

(** Whether [geometry.coordinates] is [undefined] or [null]. *)
Definition coordinatesMissing (geometry : jsval) : bool :=
  match getField geometry "coordinates" with
  | inr None | inr (Some JNull) => true
  | _ => false
  end.

(** A computation that arms no timer but the 5000ms one and never sets
    [isMounted.current] back to [true]. *)
Definition wellBehaved (m : M unit) : Prop :=
  forall s, delays5000 (log (m s))
            /\ (isMounted (final (m s)) = true -> isMounted s = true).

(** The timers of a configuration are in order: all due within 5000ms, and
    one of them pending when the last render showed the banner. *)
Definition timed (c : config) : Prop := timersDueSoon c /\ bannerHasTimer c.

(** What the component tells the outside: events on the bus and calls of
    the form's [onChange]. *)
Definition calls (l : list action) : list action :=
  filter (fun a => match a with
                   | Emit _ _ | OnChange _ _ => true
                   | _ => false
                   end) l.

End Coverage.

(** ** Further concrete runs *)

Module Sample.

#[local] Existing Instance Demo.platform.




(** Mounted over a map at rest, then the user drags the map while the
    reverse lookup of the first viewport is pending. *)
Definition dragged : @config Demo.platform :=
  fst (step (ViewportUpdate (Demo.viewport 2 48 (-121)) true)
            (Demo.mounted false)).

(** Mounted over a map at rest, then the map comes to rest elsewhere: two
    reverse lookups are pending. *)
Definition twoPending : @config Demo.platform :=
  fst (step (ViewportUpdate (Demo.viewport 2 48 (-121)) false)
            (Demo.mounted false)).

Definition elsewhere : @json Demo.platform :=
  Demo.feature [(lit "place_name", JStr (lit "500 Pine St, Seattle"))].

(** A feature whose coordinates array has one element. *)
Definition shortCoordinates : @json Demo.platform :=
  Demo.feature
    [(lit "geometry", JObj [(lit "coordinates", JArr [JNum (-122)%Z])])].

(** A feature whose geometry has no coordinates. *)
Definition noCoordinates : @json Demo.platform :=
  Demo.feature [(lit "geometry", JObj [(lit "type", JStr (lit "Point"))])].

End Sample.

(** * Properties *)

Unset Implicit Arguments.

Section Properties.

Context {P : Platform}.

Local Open Scope M_scope.

Ltac unfold_M :=
  unfold doGeocode, forwardThen, forwardCatch, reverseGeocodeEffect,
    reverseThen, reverseCatch, triggerEffect, errorTimerEffect,
    errorTimerCallback, unmountCleanup, fetch, bind, lift, ret, tell, catch,
    readIsMounted, setIsGeocoding, setIsWithGeocodingError, setIsMounted,
    final, log, result in *.

Arguments commit : simpl never.
Arguments flush : simpl never.

(** ** Handlers *)

Lemma jsstring_eqb_refl (a : jsstring) : jsstring_eqb a a = true.
Proof.
  unfold jsstring_eqb. destruct (list_eq_dec N.eq_dec a a); congruence.
Qed.

Lemma sameIdentity_refl (a : option N) : sameIdentity a a = true.
Proof. destruct a; simpl; auto using N.eqb_refl. Qed.

(** *** What each handler does, as an equation *)

Lemma forwardThen_run (data : json) (s : cells) :
  forwardThen data s
  = match locationGeometry data with
    | inl e => (inl e, s, [])
    | inr geometry =>
        if truthy geometry && isMounted s then
          match viewportPayload geometry with
          | inl e =>
              (inl e, withFlags s false false,
               [SetIsGeocoding false; SetIsWithGeocodingError false])
          | inr payload =>
              (inr tt, withFlags s false false,
               [SetIsGeocoding false; SetIsWithGeocodingError false;
                Emit (lit "setMapViewport") payload])
          end
        else if isMounted s then
          (inr tt, withFlags s false true,
           [SetIsGeocoding false; SetIsWithGeocodingError true])
        else (inr tt, s, [])
    end.
Proof.
  unfold_M. destruct (locationGeometry data) as [e | geometry];
    [reflexivity | ].
  destruct (truthy geometry), (isMounted s) eqn:E; simpl; try reflexivity.
  destruct (viewportPayload geometry); reflexivity.
Qed.

Lemma reverseThen_run (fieldName : jsstring) (data : json) (s : cells) :
  reverseThen fieldName data s
  = match placeName data with
    | inl e => (inl e, s, [])
    | inr place =>
        if truthy place && isMounted s then
          (inr tt, withFlags s false false,
           [SetIsGeocoding false; SetIsWithGeocodingError false;
            OnChange fieldName place])
        else if isMounted s then
          (inr tt, withFlags s false true,
           [SetIsGeocoding false; SetIsWithGeocodingError true])
        else (inr tt, s, [])
    end.
Proof.
  unfold_M. destruct (placeName data) as [e | place]; [reflexivity | ].
  destruct (truthy place), (isMounted s) eqn:E; reflexivity.
Qed.

Lemma forwardCatch_run (err : jserror) (s : cells) :
  forwardCatch err s
  = (inr tt,
     if isMounted s then withFlags s false true else s,
     (if isMounted s
      then [SetIsGeocoding false; SetIsWithGeocodingError true] else [])
     ++ [ConsoleError (lit "There was an error while geocoding: ") err]).
Proof. unfold_M. destruct (isMounted s) eqn:E; reflexivity. Qed.

Lemma reverseCatch_run (err : jserror) (s : cells) :
  reverseCatch err s
  = (inr tt,
     if isMounted s then withFlags s false true else s,
     (if isMounted s
      then [SetIsGeocoding false; SetIsWithGeocodingError true] else [])
     ++ [ConsoleError (lit "There was an error while reverse geocoding: ")
           err]).
Proof. unfold_M. destruct (isMounted s) eqn:E; reflexivity. Qed.

Ltac settle_cases k o :=
  destruct k, o; simpl settle; simpl thenHandler; simpl catchHandler;
  unfold catch;
  rewrite ?forwardThen_run, ?reverseThen_run;
  repeat match goal with
    | |- context [locationGeometry ?d] =>
        destruct (locationGeometry d) as [? | ?]
    | |- context [placeName ?d] => destruct (placeName d) as [? | ?]
    | |- context [truthy ?g] => destruct (truthy g)
    | |- context [viewportPayload ?g] =>
        destruct (viewportPayload g) as [? | ?]
    end;
  cbn -[forwardCatch reverseCatch];
  rewrite ?forwardCatch_run, ?reverseCatch_run;
  cbn.

(** A continuation that runs after teardown leaves the cells alone; all it
    may do is write to the console. *)
Lemma settle_unmounted (k : continuation) (o : outcome) (s : cells) :
  isMounted s = false ->
  final (settle k o s) = s
  /\ result (settle k o s) = inr tt
  /\ consoleOnly (log (settle k o s)) = true.
Proof.
  destruct s as [g e m]; simpl; intros ->.
  settle_cases k o; auto.
Qed.

(** A failing lookup on a mounted component ends in [errorShown], whatever
    the kind of failure, and asks for nothing else than console output. *)
Lemma settle_failing (k : continuation) (o : outcome) (s : cells) :
  isMounted s = true ->
  classify k o <> Found ->
  final (settle k o s) = errorShown
  /\ result (settle k o s) = inr tt
  /\ fetches (log (settle k o s)) = []
  /\ emits (log (settle k o s)) = [].
Proof.
  destruct s as [g e m]; simpl; intros -> Hc.
  unfold classify in Hc. revert Hc.
  settle_cases k o; auto; congruence.
Qed.

(** A successful lookup on a mounted component hides the banner. *)
Lemma settle_found (k : continuation) (o : outcome) (s : cells) :
  isMounted s = true ->
  classify k o = Found ->
  final (settle k o s) = withFlags s false false
  /\ result (settle k o s) = inr tt.
Proof.
  destruct s as [g e m]; simpl; intros -> Hc.
  unfold classify in Hc. revert Hc.
  settle_cases k o; auto; discriminate.
Qed.

Lemma settle_no_fetch (k : continuation) (o : outcome) (s : cells) :
  fetches (log (settle k o s)) = [].
Proof.
  destruct s as [g e m]. destruct m; settle_cases k o; reflexivity.
Qed.

Lemma doGeocode_run (p : Props) (s : cells) :
  doGeocode p s
  = (match forwardUrl p with inr _ => inr tt | inl e => inl e end,
     {| isGeocoding := true; isWithGeocodingError := false;
        isMounted := isMounted s |},
     SetIsGeocoding true :: SetIsWithGeocodingError false
     :: match forwardUrl p with
        | inr url => [Fetch GET url ForwardGeocode]
        | inl _ => []
        end).
Proof.
  unfold_M. cbn. destruct (forwardUrl p); reflexivity.
Qed.

Lemma reverseGeocodeEffect_run (p : Props) (s : cells) :
  reverseGeocodeEffect p s
  = if isMapDraggingOrZooming (connected p) then (inr tt, s, [])
    else (inr tt,
          {| isGeocoding := true;
             isWithGeocodingError := isWithGeocodingError s;
             isMounted := isMounted s |},
          [SetIsGeocoding true;
           Fetch GET (reverseUrlOf (fields (mapViewport (connected p))))
                 (ReverseGeocode (name (own p)))]).
Proof.
  unfold_M. destruct (isMapDraggingOrZooming (connected p)); reflexivity.
Qed.

Lemma featureCoordinates_payload (data : json) (coordinates : list json) :
  featureCoordinates data = Some coordinates ->
  exists geometry,
    locationGeometry data = inr geometry
    /\ truthy geometry = true
    /\ viewportPayload geometry
       = inr {| payloadLatitude := nth_error coordinates 1;
                payloadLongitude := nth_error coordinates 0;
                zoom := 14;
                transitionDuration := 1000 |}.
Proof.
  unfold featureCoordinates, locationGeometry, firstFeature, viewportPayload.
  destruct data as [ | | | | | ms]; try discriminate. simpl.
  destruct (member (lit "features") ms) as [[ | | | | items | ] | ];
    try discriminate.
  destruct items as [ | [ | | | | | feature] rest]; try discriminate. simpl.
  destruct (member (lit "geometry") feature) as [[ | | | | | geometry] | ];
    try discriminate.
  destruct (member (lit "coordinates") geometry) as [[ | | | | cs | ] | ] eqn:E;
    try discriminate.
  intros [= <-]. eexists; split; [reflexivity | split; [reflexivity | ]].
  simpl. rewrite E. reflexivity.
Qed.

(** ** The host *)

Lemma effectsOf_run (reverseDue triggerDue timerDue : bool) (p : Props)
    (e : bool) (s : cells) :
  effectsOf reverseDue triggerDue timerDue p e s
  = let rev := reverseDue && negb (isMapDraggingOrZooming (connected p)) in
    let trig := triggerDue && isTriggeringGeocode (own p) in
    let arm := if timerDue && e then [SetTimeout 5000] else [] in
    let s1 := if rev then withFlags s true (isWithGeocodingError s) else s in
    (match forwardUrl p with
     | inl err => if trig then inl err else inr tt
     | inr _ => inr tt
     end,
     if trig then withFlags s1 true false else s1,
     (if rev
      then [SetIsGeocoding true;
            Fetch GET (reverseUrlOf (fields (mapViewport (connected p))))
                  (ReverseGeocode (name (own p)))]
      else [])
     ++ (if trig
         then SetIsGeocoding true :: SetIsWithGeocodingError false
              :: match forwardUrl p with
                 | inr url => [Fetch GET url ForwardGeocode]
                 | inl _ => []
                 end
         else [])
     ++ match forwardUrl p with
        | inl _ => if trig then [] else arm
        | inr _ => arm
        end).
Proof.
  unfold effectsOf, triggerEffect, errorTimerEffect, bind, ret, tell.
  destruct reverseDue, triggerDue, timerDue, e,
    (isTriggeringGeocode (own p));
    cbv beta iota;
    rewrite ?reverseGeocodeEffect_run;
    destruct (isMapDraggingOrZooming (connected p));
    cbv beta iota;
    rewrite ?doGeocode_run;
    destruct (forwardUrl p);
    reflexivity.
Qed.

Lemma effectsOf_quiet (reverseDue triggerDue timerDue : bool) (p : Props)
    (e : bool) (s : cells) :
  reverseDue && negb (isMapDraggingOrZooming (connected p)) = false ->
  triggerDue && isTriggeringGeocode (own p) = false ->
  effectsOf reverseDue triggerDue timerDue p e s
  = (inr tt, s, if timerDue && e then [SetTimeout 5000] else []).
Proof.
  intros Hr Ht. rewrite effectsOf_run, Hr, Ht. simpl.
  destruct (forwardUrl p); reflexivity.
Qed.

Lemma reverseDepsChanged_same (p : Props) (s s' : cells) :
  reverseDepsChanged (depsOf p s) (depsOf p s') = false.
Proof.
  unfold reverseDepsChanged. simpl.
  rewrite N.eqb_refl, xorb_nilpotent. reflexivity.
Qed.

Lemma triggerDepsChanged_same (p p' : Props) (s s' : cells) :
  own p = own p' ->
  mapConfig (connected p) = mapConfig (connected p') ->
  triggerDepsChanged (depsOf p s) (depsOf p' s') = false.
Proof.
  intros Ho Hc. unfold triggerDepsChanged. simpl. rewrite Ho, Hc.
  rewrite xorb_nilpotent, jsstring_eqb_refl, !sameIdentity_refl.
  reflexivity.
Qed.

Lemma triggerDepsChanged_refl (p : Props) (s s' : cells) :
  triggerDepsChanged (depsOf p s) (depsOf p s') = false.
Proof. apply triggerDepsChanged_same; reflexivity. Qed.

(** A render in which neither the reverse geocode nor the trigger effect has
    anything to do: the only thing that can happen is that the banner timer
    is armed. *)
Lemma commit_quiet (c : config) :
  isMounted (state c) = true ->
  reverseDepsChanged (rendered c) (depsOf (props c) (state c))
  && negb (isMapDraggingOrZooming (connected (props c))) = false ->
  triggerDepsChanged (rendered c) (depsOf (props c) (state c))
  && isTriggeringGeocode (own (props c)) = false ->
  commit c
  = let arm := xorb (depError (rendered c)) (isWithGeocodingError (state c))
               && isWithGeocodingError (state c) in
    ({| props := props c; state := state c;
        rendered := depsOf (props c) (state c);
        inflight := inflight c;
        timers := timers c ++ if arm then [(clock c + 5000)%N] else [];
        clock := clock c |},
     if arm then [SetTimeout 5000] else []).
Proof.
  intros Hm Hr Ht. unfold commit. rewrite Hm. unfold runEffects.
  rewrite (effectsOf_quiet _ _ _ _ _ _ Hr Ht).
  unfold errorDepsChanged, install, withRendered, result, final, log. simpl.
  destruct (xorb (depError (rendered c)) (isWithGeocodingError (state c))
            && isWithGeocodingError (state c)); simpl; rewrite app_nil_r;
    reflexivity.
Qed.

Lemma commit_unmounted (c : config) :
  isMounted (state c) = false -> commit c = (c, []).
Proof. intros H. unfold commit. rewrite H. reflexivity. Qed.

Lemma flush_unmounted (c : config) :
  isMounted (state c) = false -> flush c = (c, []).
Proof.
  intros H. unfold flush, andThen. rewrite (commit_unmounted _ H). simpl.
  rewrite (commit_unmounted _ H). reflexivity.
Qed.

(** The same for the two renders that follow a handler. *)
Lemma flush_quiet (c : config) :
  isMounted (state c) = true ->
  reverseDepsChanged (rendered c) (depsOf (props c) (state c))
  && negb (isMapDraggingOrZooming (connected (props c))) = false ->
  triggerDepsChanged (rendered c) (depsOf (props c) (state c))
  && isTriggeringGeocode (own (props c)) = false ->
  flush c
  = let arm := xorb (depError (rendered c)) (isWithGeocodingError (state c))
               && isWithGeocodingError (state c) in
    ({| props := props c; state := state c;
        rendered := depsOf (props c) (state c);
        inflight := inflight c;
        timers := timers c ++ if arm then [(clock c + 5000)%N] else [];
        clock := clock c |},
     if arm then [SetTimeout 5000] else []).
Proof.
  intros Hm Hr Ht. unfold flush, andThen.
  rewrite (commit_quiet c Hm Hr Ht). cbv zeta. simpl fst. simpl snd.
  rewrite commit_quiet; simpl; auto.
  - rewrite xorb_nilpotent. simpl. rewrite !app_nil_r. reflexivity.
  - rewrite reverseDepsChanged_same. reflexivity.
  - rewrite triggerDepsChanged_refl. reflexivity.
Qed.

(** *** Every reachable configuration is settled *)

Lemma runEffects_mounted (m : M unit) (c : config) :
  isMounted (state (fst (runEffects m c))) = true ->
  props (fst (runEffects m c)) = props c
  /\ rendered (fst (runEffects m c)) = rendered c.
Proof.
  unfold runEffects. destruct (result (m (state c))); simpl; auto.
Qed.

Lemma commit_settles (c : config) :
  (isMounted (state c) = true ->
   exists s0, rendered c = depsOf (props c) s0) ->
  settled (fst (commit c)).
Proof.
  intros H. destruct (isMounted (state c)) eqn:Hm.
  - destruct (H eq_refl) as [s0 Hs0].
    rewrite commit_quiet; auto.
    + intros _. reflexivity.
    + rewrite Hs0, reverseDepsChanged_same. reflexivity.
    + rewrite Hs0, triggerDepsChanged_refl. reflexivity.
  - rewrite commit_unmounted by assumption. intros Hm'. simpl in Hm'.
    congruence.
Qed.

Lemma flush_settled (c : config) : settled (fst (flush c)).
Proof.
  unfold flush, andThen. simpl fst. apply commit_settles.
  unfold commit. destruct (isMounted (state c)) eqn:Hm.
  - intros H. destruct (runEffects_mounted _ _ H) as [Hp Hr].
    rewrite Hp, Hr. simpl. eauto.
  - simpl. congruence.
Qed.

Lemma mount_settled (p : Props) : settled (fst (mount p)).
Proof.
  unfold mount, andThen. simpl fst. apply commit_settles.
  intros H. destruct (runEffects_mounted _ _ H) as [Hp Hr].
  rewrite Hp, Hr. simpl. eauto.
Qed.

Lemma fireTimers_settled (n : nat) (c : config) :
  settled c -> settled (fst (fireTimers n c)).
Proof.
  revert c. induction n as [ | n IH]; intros c H; simpl; auto.
  apply IH. apply flush_settled.
Qed.

Lemma step_settled (e : event) (c : config) :
  settled c -> settled (fst (step e c)).
Proof.
  intros H. destruct e; simpl.
  - destruct (isMounted (state c)); auto.
    destruct (isGeocoding (state c)); simpl; auto. apply flush_settled.
  - destruct (isMounted (state c)); auto. apply flush_settled.
  - destruct (isMounted (state c)); auto. apply flush_settled.
  - destruct (isMounted (state c)); auto. apply flush_settled.
  - destruct (isMounted (state c)); auto. apply flush_settled.
  - destruct (nth_error (inflight c) i); auto.
    destruct o; simpl.
    + apply flush_settled.
    + destruct (result (thenHandler c0 data (state c))); simpl;
        apply flush_settled.
  - apply fireTimers_settled. exact H.
  - destruct (isMounted (state c)); auto. intros Hm. discriminate Hm.
Qed.

Lemma reachable_settled (c : config) : reachable c -> settled c.
Proof.
  induction 1; auto using mount_settled, step_settled.
Qed.

(** *** The mount flag is written once, at teardown *)

Lemma preservesMount_doGeocode (p : Props) : preservesMount (doGeocode p).
Proof.
  intros s. rewrite doGeocode_run. split; [reflexivity | ].
  unfold log. simpl. destruct (forwardUrl p); reflexivity.
Qed.

Lemma preservesMount_thenHandler (k : continuation) (data : json) :
  preservesMount (thenHandler k data).
Proof.
  intros s. destruct k; simpl.
  - rewrite forwardThen_run.
    destruct (locationGeometry data) as [e | g]; [split; reflexivity | ].
    destruct (truthy g), (isMounted s) eqn:E; simpl; auto.
    destruct (viewportPayload g); split; simpl; auto.
  - rewrite reverseThen_run.
    destruct (placeName data) as [e | g]; [split; reflexivity | ].
    destruct (truthy g), (isMounted s) eqn:E; simpl; auto.
Qed.

Lemma preservesMount_catchHandler (k : continuation) (err : jserror) :
  preservesMount (catchHandler k err).
Proof.
  intros s. destruct k; simpl;
    rewrite ?forwardCatch_run, ?reverseCatch_run;
    destruct (isMounted s) eqn:E; simpl; auto.
Qed.

Lemma preservesMount_effectsOf (rd td ad : bool) (p : Props) (e : bool) :
  preservesMount (effectsOf rd td ad p e).
Proof.
  intros s. rewrite effectsOf_run. cbv zeta. unfold final, log. simpl.
  split.
  - destruct (rd && negb (isMapDraggingOrZooming (connected p))),
      (td && isTriggeringGeocode (own p)); reflexivity.
  - destruct (rd && negb (isMapDraggingOrZooming (connected p))),
      (td && isTriggeringGeocode (own p)), (ad && e), (forwardUrl p);
      reflexivity.
Qed.

Lemma preservesMount_errorTimerCallback : preservesMount errorTimerCallback.
Proof. intros s. split; reflexivity. Qed.

Lemma preservesMount_onChange (p : Props) (s0 : cells) (n v : jsstring) :
  preservesMount (onChange (textInput (render p s0)) n v).
Proof. intros s. split; reflexivity. Qed.

Lemma mountWrites_app (l1 l2 : list action) :
  mountWrites (l1 ++ l2) = mountWrites l1 ++ mountWrites l2.
Proof. apply filter_app. Qed.

Lemma tearsDownOnce_noop (c : config) : tearsDownOnce c (c, []).
Proof.
  split; simpl; auto. destruct (isMounted (state c)); reflexivity.
Qed.

Lemma tearsDownOnce_state (c c' : config) (t : transition) :
  state c = state c' -> tearsDownOnce c' t -> tearsDownOnce c t.
Proof. unfold tearsDownOnce. intros ->. auto. Qed.

Lemma tearsDownOnce_andThen (c : config) (t : transition)
    (f : config -> transition) :
  tearsDownOnce c t ->
  tearsDownOnce (fst t) (f (fst t)) ->
  tearsDownOnce c (andThen t f).
Proof.
  unfold tearsDownOnce, andThen. simpl. intros [H1 H1'] [H2 H2'].
  rewrite mountWrites_app, H1, H2.
  destruct (isMounted (state c)), (isMounted (state (fst t))),
    (isMounted (state (fst (f (fst t))))); simpl; auto;
    try (specialize (H1' eq_refl)); try (specialize (H2' eq_refl));
    try discriminate.
Qed.

Lemma tearsDownOnce_runHandler (m : M unit) (c : config) :
  preservesMount m -> tearsDownOnce c (runHandler m c).
Proof.
  intros H. destruct (H (state c)) as [Hm Hw].
  unfold tearsDownOnce, runHandler. simpl.
  rewrite mountWrites_app, Hw, Hm.
  split; [ | auto].
  destruct (isMounted (state c)), (result (m (state c))); reflexivity.
Qed.

Lemma tearsDownOnce_unmount (c : config) :
  isMounted (state c) = true ->
  tearsDownOnce c (runHandler unmountCleanup c).
Proof.
  intros H. unfold tearsDownOnce. simpl. rewrite H. split; auto.
Qed.

Lemma tearsDownOnce_runEffects (m : M unit) (c : config) :
  preservesMount m ->
  isMounted (state c) = true ->
  tearsDownOnce c (runEffects m c).
Proof.
  intros H Hc. destruct (H (state c)) as [Hm Hw].
  unfold tearsDownOnce, runEffects.
  destruct (result (m (state c))); simpl.
  - rewrite Hc, !mountWrites_app, Hw. split; [reflexivity | discriminate].
  - rewrite Hm, Hc, Hw. split; [reflexivity | discriminate].
Qed.

Lemma tearsDownOnce_commit (c : config) : tearsDownOnce c (commit c).
Proof.
  unfold commit. destruct (isMounted (state c)) eqn:Hm.
  - apply tearsDownOnce_state with (c' := withRendered c (depsOf (props c) (state c)));
      [reflexivity | ].
    apply tearsDownOnce_runEffects; auto using preservesMount_effectsOf.
  - apply tearsDownOnce_noop.
Qed.

Lemma tearsDownOnce_flush (c : config) : tearsDownOnce c (flush c).
Proof.
  apply tearsDownOnce_andThen; apply tearsDownOnce_commit.
Qed.

Lemma tearsDownOnce_handled (m : M unit) (c : config) :
  preservesMount m ->
  tearsDownOnce c (andThen (runHandler m c) flush).
Proof.
  intros H. apply tearsDownOnce_andThen;
    auto using tearsDownOnce_runHandler, tearsDownOnce_flush.
Qed.

Lemma tearsDownOnce_fireTimers (n : nat) (c : config) :
  tearsDownOnce c (fireTimers n c).
Proof.
  revert c. induction n as [ | n IH]; intros c; simpl.
  - apply tearsDownOnce_noop.
  - apply tearsDownOnce_andThen; [ | apply IH].
    apply tearsDownOnce_handled, preservesMount_errorTimerCallback.
Qed.

Lemma tearsDownOnce_settleRequest (k : continuation) (o : outcome)
    (c : config) :
  tearsDownOnce c (settleRequest k o c).
Proof.
  destruct o; simpl.
  - apply tearsDownOnce_handled, preservesMount_catchHandler.
  - apply tearsDownOnce_andThen.
    + apply tearsDownOnce_andThen; [ | apply tearsDownOnce_flush].
      destruct (preservesMount_thenHandler k data (state c)) as [Hm Hw].
      unfold tearsDownOnce. simpl. rewrite Hm, Hw.
      split; auto. destruct (isMounted (state c)); reflexivity.
    + destruct (result (thenHandler k data (state c))).
      * apply tearsDownOnce_handled, preservesMount_catchHandler.
      * apply tearsDownOnce_noop.
Qed.

Lemma tearsDownOnce_step (e : event) (c : config) :
  tearsDownOnce c (step e c).
Proof.
  destruct e; simpl.
  - destruct (isMounted (state c)) eqn:Hm; [ | apply tearsDownOnce_noop].
    destruct (isGeocoding (state c)); simpl;
      [apply tearsDownOnce_noop | ].
    apply tearsDownOnce_handled, preservesMount_doGeocode.
  - destruct (isMounted (state c)) eqn:Hm; [ | apply tearsDownOnce_noop].
    apply tearsDownOnce_handled, preservesMount_doGeocode.
  - destruct (isMounted (state c)) eqn:Hm; [ | apply tearsDownOnce_noop].
    apply tearsDownOnce_handled. intros s. split; reflexivity.
  - destruct (isMounted (state c)) eqn:Hm; [ | apply tearsDownOnce_noop].
    eapply tearsDownOnce_state; [ | apply tearsDownOnce_flush]. reflexivity.
  - destruct (isMounted (state c)) eqn:Hm; [ | apply tearsDownOnce_noop].
    eapply tearsDownOnce_state; [ | apply tearsDownOnce_flush]. reflexivity.
  - destruct (nth_error (inflight c) i); [ | apply tearsDownOnce_noop].
    eapply tearsDownOnce_state; [ | apply tearsDownOnce_settleRequest].
    reflexivity.
  - unfold advance.
    eapply tearsDownOnce_state; [ | apply tearsDownOnce_fireTimers].
    reflexivity.
  - destruct (isMounted (state c)) eqn:Hm; [ | apply tearsDownOnce_noop].
    apply tearsDownOnce_unmount, Hm.
Qed.

Lemma tearsDownOnce_run (es : list event) (c : config) :
  tearsDownOnce c (run es c).
Proof.
  revert c. induction es as [ | e es IH]; intros c; simpl.
  - apply tearsDownOnce_noop.
  - apply tearsDownOnce_andThen; [apply tearsDownOnce_step | apply IH].
Qed.

Lemma tearsDownOnce_mount (p : Props) :
  mountWrites (snd (mount p))
  = (if isMounted (state (fst (mount p))) then [] else [SetIsMounted false]).
Proof.
  pose (c0 := {| props := p; state := initialCells;
                 rendered := depsOf p initialCells;
                 inflight := []; timers := []; clock := 0%N |}).
  assert (H : tearsDownOnce c0 (mount p)).
  { apply tearsDownOnce_andThen; [ | apply tearsDownOnce_commit].
    apply tearsDownOnce_runEffects;
      [apply preservesMount_effectsOf | reflexivity]. }
  destruct H as [H _]. rewrite H.
  destruct (isMounted (state (fst (mount p)))); reflexivity.
Qed.

(** *** Handlers that only write cells *)

Lemma flush_install (c : config) (r : (jserror + unit) * cells * list action)
    (s0 : cells) :
  isMounted (final r) = true ->
  rendered c = depsOf (props c) s0 ->
  requestsOf (log r) = [] ->
  timeoutsOf (clock c) (log r) = [] ->
  fst (flush (install c r))
  = atRest c (final r)
      (negb (isWithGeocodingError s0) && isWithGeocodingError (final r)).
Proof.
  intros Hm Hr Hq Ht. rewrite flush_quiet; simpl; auto.
  - unfold atRest. rewrite Hr, Hq, Ht, !app_nil_r. simpl.
    destruct (isWithGeocodingError s0), (isWithGeocodingError (final r));
      reflexivity.
  - rewrite Hr, reverseDepsChanged_same. reflexivity.
  - rewrite Hr, triggerDepsChanged_refl. reflexivity.
Qed.

Lemma catchHandler_run (k : continuation) (err : jserror) (s : cells) :
  isMounted s = true ->
  final (catchHandler k err s) = withFlags s false true
  /\ requestsOf (log (catchHandler k err s)) = []
  /\ (forall now, timeoutsOf now (log (catchHandler k err s)) = []).
Proof.
  intros H. destruct k; simpl;
    rewrite ?forwardCatch_run, ?reverseCatch_run, H; auto.
Qed.

Lemma thenHandler_quiet (k : continuation) (data : json) (s : cells) :
  isMounted (final (thenHandler k data s)) = isMounted s
  /\ requestsOf (log (thenHandler k data s)) = []
  /\ (forall now, timeoutsOf now (log (thenHandler k data s)) = []).
Proof.
  destruct k; simpl; rewrite ?forwardThen_run, ?reverseThen_run.
  - destruct (locationGeometry data) as [e | g]; auto.
    destruct (truthy g), (isMounted s) eqn:E; simpl; auto.
    destruct (viewportPayload g); simpl; auto.
  - destruct (placeName data) as [e | g]; auto.
    destruct (truthy g), (isMounted s) eqn:E; simpl; auto.
Qed.

(** On a mounted component at rest, settling a request leaves the cells the
    promise chain computes; the renders in between add nothing. *)
Lemma settleRequest_state (k : continuation) (o : outcome) (c : config)
    (s0 : cells) :
  isMounted (state c) = true ->
  rendered c = depsOf (props c) s0 ->
  state (fst (settleRequest k o c)) = final (settle k o (state c)).
Proof.
  intros Hm Hr. destruct o as [err | data];
    cbn [settleRequest andThen runHandler fst snd].
  - destruct (catchHandler_run k err _ Hm) as (Hf & Hq & Ht).
    rewrite (flush_install c _ s0); auto. rewrite Hf. exact Hm.
  - destruct (thenHandler_quiet k data (state c)) as (Hf & Hq & Ht).
    rewrite Hm in Hf.
    rewrite (flush_install c _ s0); auto.
    unfold settle, catch, result, final in *.
    destruct (thenHandler k data (state c)) as [[[e | []] s1] l1] eqn:E;
      cbn [fst snd] in *; [ | reflexivity].
    destruct (catchHandler_run k e _ Hf) as (Hf' & Hq' & Ht').
    cbn [andThen runHandler fst snd].
    rewrite (flush_install _ _ s1); auto.
    + cbn [state atRest]. unfold final.
      destruct (catchHandler k e s1) as [[r2 s2] l2]. reflexivity.
    + cbn [state atRest]. rewrite Hf'. exact Hf.
Qed.

Lemma settleRequest_inflight (k : continuation) (o : outcome) (c : config)
    (s0 : cells) :
  isMounted (state c) = true ->
  rendered c = depsOf (props c) s0 ->
  inflight (fst (settleRequest k o c)) = inflight c.
Proof.
  intros Hm Hr. destruct o as [err | data];
    cbn [settleRequest andThen runHandler fst snd].
  - destruct (catchHandler_run k err _ Hm) as (Hf & Hq & Ht).
    rewrite (flush_install c _ s0); auto. rewrite Hf. exact Hm.
  - destruct (thenHandler_quiet k data (state c)) as (Hf & Hq & Ht).
    rewrite Hm in Hf.
    rewrite (flush_install c _ s0); auto.
    unfold result, final in *.
    destruct (thenHandler k data (state c)) as [[[e | []] s1] l1] eqn:E;
      cbn [fst snd] in *; [ | reflexivity].
    destruct (catchHandler_run k e _ Hf) as (Hf' & Hq' & Ht').
    cbn [andThen runHandler fst snd].
    rewrite (flush_install _ _ s1); auto.
    cbn [state atRest]. rewrite Hf'. exact Hf.
Qed.

(** If moreover the banner was hidden, exactly the settlements that end with
    the banner visible arm one timer, 5000 from now. *)
Lemma settleRequest_timers (k : continuation) (o : outcome) (c : config) :
  isMounted (state c) = true ->
  rendered c = depsOf (props c) (state c) ->
  isWithGeocodingError (state c) = false ->
  fst (settleRequest k o c)
  = atRest c (final (settle k o (state c)))
      (isWithGeocodingError (final (settle k o (state c)))).
Proof.
  intros Hm Hr He. destruct o as [err | data];
    cbn [settleRequest andThen runHandler fst snd].
  - destruct (catchHandler_run k err _ Hm) as (Hf & Hq & Ht).
    rewrite (flush_install c _ (state c)); auto.
    + rewrite He. reflexivity.
    + rewrite Hf. exact Hm.
  - destruct (thenHandler_quiet k data (state c)) as (Hf & Hq & Ht).
    rewrite Hm in Hf.
    rewrite (flush_install c _ (state c)); auto.
    rewrite He. simpl negb. simpl andb.
    unfold settle, catch, result, final in *.
    destruct (thenHandler k data (state c)) as [[[e | []] s1] l1] eqn:E;
      cbn [fst snd] in *; [ | reflexivity].
    assert (He1 : isWithGeocodingError s1 = false).
    { revert E. destruct k; simpl;
        rewrite ?forwardThen_run, ?reverseThen_run.
      - destruct (locationGeometry data) as [e' | g].
        + intros [= _ <- _]. exact He.
        + destruct (truthy g); rewrite Hm; simpl.
          * destruct (viewportPayload g); intros [= _ <- _]. reflexivity.
          * discriminate.
      - destruct (placeName data) as [e' | g].
        + intros [= _ <- _]. exact He.
        + destruct (truthy g); rewrite Hm; simpl; discriminate. }
    rewrite He1.
    destruct (catchHandler_run k e _ Hf) as (Hf' & Hq' & Ht').
    cbn [andThen runHandler fst snd].
    rewrite (flush_install _ _ s1); auto.
    + cbn [state atRest]. unfold final in *.
      destruct (catchHandler k e s1) as [[r2 s2] l2]. cbn [fst snd] in *.
      subst s2. rewrite He1. unfold atRest. simpl.
      rewrite !app_nil_r. reflexivity.
    + cbn [state atRest]. rewrite Hf'. exact Hf.
Qed.

(** *** Timers *)

Lemma fireTimers_S (n : nat) (c : config) :
  fst (fireTimers (S n) c)
  = fst (fireTimers n (fst (andThen (runHandler errorTimerCallback c) flush))).
Proof. reflexivity. Qed.

Lemma fireTimer_unmounted (c : config) :
  isMounted (state c) = false ->
  fst (andThen (runHandler errorTimerCallback c) flush)
  = install c (errorTimerCallback (state c)).
Proof.
  intros Hm. cbn [andThen runHandler fst snd].
  rewrite flush_unmounted; auto.
Qed.

Lemma fireTimer_mounted (c : config) :
  isMounted (state c) = true ->
  rendered c = depsOf (props c) (state c) ->
  fst (andThen (runHandler errorTimerCallback c) flush)
  = atRest c (withFlags (state c) (isGeocoding (state c)) false) false.
Proof.
  intros Hm Hr. cbn [andThen runHandler fst snd].
  rewrite (flush_install c _ (state c)); auto.
  unfold final. cbn [errorTimerCallback setIsWithGeocodingError fst snd].
  rewrite andb_false_r. reflexivity.
Qed.

Lemma fireTimers_unmounted (n : nat) (c : config) :
  isMounted (state c) = false ->
  state (fst (fireTimers (S n) c))
  = withFlags (state c) (isGeocoding (state c)) false.
Proof.
  revert c. induction n as [ | n IH]; intros c Hm; rewrite fireTimers_S;
    rewrite (fireTimer_unmounted c Hm).
  - reflexivity.
  - rewrite IH by exact Hm. reflexivity.
Qed.

Lemma fireTimers_mounted (n : nat) (c : config) :
  isMounted (state c) = true ->
  rendered c = depsOf (props c) (state c) ->
  state (fst (fireTimers (S n) c))
  = withFlags (state c) (isGeocoding (state c)) false.
Proof.
  revert c. induction n as [ | n IH]; intros c Hm Hr; rewrite fireTimers_S;
    rewrite (fireTimer_mounted c Hm Hr).
  - reflexivity.
  - rewrite IH by (try exact Hm; reflexivity). reflexivity.
Qed.

Lemma filter_due_nonempty (now t : N) (ts : list N) :
  In t ts -> (t <= now)%N ->
  exists n, List.length (filter (fun t => (t <=? now)%N) ts) = S n.
Proof.
  intros Hin Hle.
  assert (H : In t (filter (fun t => (t <=? now)%N) ts)).
  { apply filter_In. split; auto. apply N.leb_le. exact Hle. }
  destruct (filter (fun t => (t <=? now)%N) ts); [destruct H | simpl; eauto].
Qed.

(** *** Viewport updates *)

Lemma step_viewport_dragging (c : config) (vp : object MapViewport) :
  settled c ->
  isMounted (state c) = true ->
  step (ViewportUpdate vp true) c
  = (atRest (withProps c (withViewport (props c) vp true)) (state c) false,
     []).
Proof.
  intros Hs Hm. cbn [step]. rewrite Hm.
  rewrite flush_quiet; simpl; auto.
  - rewrite (Hs Hm). simpl. rewrite xorb_nilpotent. reflexivity.
  - apply andb_false_r.
  - rewrite (Hs Hm), triggerDepsChanged_same; reflexivity.
Qed.

Lemma step_viewport_rest (c : config) (vp : object MapViewport) :
  settled c ->
  isMounted (state c) = true ->
  isMapDraggingOrZooming (connected (props c)) = true ->
  snd (step (ViewportUpdate vp false) c)
  = [SetIsGeocoding true;
     Fetch GET (reverseUrlOf (fields vp)) (ReverseGeocode (name (own (props c))))].
Proof.
  intros Hs Hm Hd. cbn [step]. rewrite Hm.
  unfold flush, andThen. simpl snd.
  assert (Hc : commit (withProps c (withViewport (props c) vp false))
               = (atRest (install (withProps c (withViewport (props c) vp false))
                            (inr tt, state c,
                             [Fetch GET (reverseUrlOf (fields vp))
                                (ReverseGeocode (name (own (props c))))]))
                         (withFlags (state c) true
                            (isWithGeocodingError (state c)))
                         false,
                  [SetIsGeocoding true;
                   Fetch GET (reverseUrlOf (fields vp))
                     (ReverseGeocode (name (own (props c))))])).
  { unfold commit. simpl. rewrite Hm, (Hs Hm). unfold runEffects.
    rewrite effectsOf_run. cbv zeta.
    unfold reverseDepsChanged, errorDepsChanged. simpl.
    rewrite Hd, orb_true_r, xorb_nilpotent. simpl.
    rewrite triggerDepsChanged_same by reflexivity. simpl.
    unfold result, atRest, install, final, log. simpl.
    destruct (forwardUrl (withViewport (props c) vp false)); simpl;
      rewrite ?app_nil_r; reflexivity. }
  rewrite Hc. simpl fst. simpl snd.
  rewrite commit_quiet.
  - cbn [snd atRest rendered state depError depsOf].
    rewrite xorb_nilpotent. reflexivity.
  - exact Hm.
  - cbn [atRest rendered props state].
    rewrite reverseDepsChanged_same. reflexivity.
  - cbn [atRest rendered props state].
    rewrite triggerDepsChanged_refl. reflexivity.
Qed.

Lemma run_dragging (vps : list (object MapViewport)) (c : config) :
  settled c ->
  isMounted (state c) = true ->
  let t := run (map (fun vp => ViewportUpdate vp true) vps) c in
  snd t = []
  /\ settled (fst t)
  /\ state (fst t) = state c
  /\ own (props (fst t)) = own (props c)
  /\ isMapDraggingOrZooming (connected (props (fst t)))
     = match vps with
       | [] => isMapDraggingOrZooming (connected (props c))
       | _ :: _ => true
       end.
Proof.
  revert c. induction vps as [ | vp vps IH]; intros c Hs Hm;
    cbn [run map].
  - simpl. auto.
  - unfold andThen. rewrite (step_viewport_dragging c vp Hs Hm).
    simpl fst. simpl snd.
    set (c1 := atRest (withProps c (withViewport (props c) vp true))
                      (state c) false).
    assert (Hs1 : settled c1) by (intros _; reflexivity).
    destruct (IH c1 Hs1 Hm) as (Hl & Hs2 & Hst & Ho & Hd).
    repeat split; auto.
    rewrite Hd. destruct vps; reflexivity.
Qed.

(** *** Requests that settle after teardown *)

Lemma consoleOnly_no_writes (l : list action) :
  consoleOnly l = true -> cellWrites l = [].
Proof.
  induction l as [ | a l IH]; simpl; auto.
  destruct a; simpl; try discriminate. exact IH.
Qed.

Lemma catchHandler_unmounted (k : continuation) (err : jserror) (s : cells) :
  isMounted s = false -> final (catchHandler k err s) = s.
Proof.
  intros H. exact (proj1 (settle_unmounted k (Rejected err) s H)).
Qed.

Lemma thenHandler_unmounted (k : continuation) (data : json) (s : cells) :
  isMounted s = false -> final (thenHandler k data s) = s.
Proof.
  intros H. destruct k; simpl; rewrite ?forwardThen_run, ?reverseThen_run.
  - destruct (locationGeometry data) as [e | g]; auto.
    rewrite H, andb_false_r. reflexivity.
  - destruct (placeName data) as [e | g]; auto.
    rewrite H, andb_false_r. reflexivity.
Qed.

Lemma settleRequest_unmounted (k : continuation) (o : outcome) (c : config) :
  isMounted (state c) = false ->
  state (fst (settleRequest k o c)) = state c.
Proof.
  intros Hm. destruct o as [err | data];
    cbn [settleRequest andThen runHandler fst snd].
  - rewrite flush_unmounted; simpl;
      rewrite catchHandler_unmounted; auto.
  - assert (H1 : final (thenHandler k data (state c)) = state c)
      by (apply thenHandler_unmounted; exact Hm).
    rewrite flush_unmounted by (simpl; rewrite H1; exact Hm).
    destruct (result (thenHandler k data (state c)));
      cbn [andThen runHandler fst snd]; [ | exact H1].
    rewrite flush_unmounted; simpl; rewrite H1;
      rewrite catchHandler_unmounted; auto.
Qed.

(** ** Claims about the handlers *)

(** C3: a forward geocode whose response holds a valid first feature, settled
    while the component is mounted, emits exactly one [setMapViewport] event;
    its latitude is the second geometry coordinate and its longitude the
    first, both as received, its zoom is 14 and its transition duration
    1000.  [s] is the state at the invocation, [s'] the state when the
    response arrives. *)
Theorem forward_geocode_emits_one_viewport_event
    (p : Props) (s s' : cells) (data : json) (coordinates : list json) :
  isMounted s' = true ->
  featureCoordinates data = Some coordinates ->
  emits (log (doGeocode p s)
         ++ log (settle ForwardGeocode (Resolved data) s'))
  = [Emit (lit "setMapViewport")
       {| payloadLatitude := nth_error coordinates 1;
          payloadLongitude := nth_error coordinates 0;
          zoom := 14;
          transitionDuration := 1000 |}].
Proof.
  intros Hm Hv.
  destruct (featureCoordinates_payload data coordinates Hv) as (geometry & Hg & Ht & Hp).
  rewrite doGeocode_run. unfold log at 1. simpl snd.
  simpl settle. simpl thenHandler. unfold catch.
  rewrite forwardThen_run, Hg, Ht, Hm, Hp. simpl.
  destruct (forwardUrl p); reflexivity.
Qed.

(** C6, as amended: while the component is mounted, every failing lookup,
    be it a rejected request, a response the continuation throws on or a
    well-formed response without usable feature, ends in the same cells
    (loading false, error flag true) and hence the same view; the chain
    itself does not fail and issues no further request, the failed request
    is gone from the pending ones and none takes its place, and the text
    input still reports edits to the form. *)
Theorem failing_lookup_collapses_to_error_banner
    (p : Props) (k : continuation) (o : outcome) (s : cells) :
  isMounted s = true ->
  classify k o <> Found ->
  final (settle k o s) = errorShown
  /\ render p (final (settle k o s)) = render p errorShown
  /\ bannerOpacity (render p errorShown) = 1%N
  /\ spinner (render p errorShown) = false
  /\ result (settle k o s) = inr tt
  /\ fetches (log (settle k o s)) = []
  /\ (forall fieldName text,
         onChange (textInput (render p (final (settle k o s)))) fieldName text
                  (final (settle k o s))
         = (inr tt, errorShown, [OnChange fieldName (Some (JStr text))]))
  /\ (forall (c : config) (i : nat),
         reachable c ->
         isMounted (state c) = true ->
         nth_error (inflight c) i = Some k ->
         state (fst (step (Settle i o) c)) = errorShown
         /\ inflight (fst (step (Settle i o) c))
            = firstn i (inflight c) ++ skipn (S i) (inflight c)).
Proof.
  intros Hm Hc.
  destruct (settle_failing k o s Hm Hc) as (Hf & Hr & Hn & _).
  rewrite Hf. repeat split; auto.
  - rename H into Hr', H0 into Hm', H1 into Hi.
    cbn [step]. rewrite Hi.
    rewrite (settleRequest_state k o (dropRequest i c) (state c)); auto.
    + apply (settle_failing k o (state c) Hm' Hc).
    + apply (reachable_settled c Hr' Hm').
  - rename H into Hr', H0 into Hm', H1 into Hi.
    cbn [step]. rewrite Hi.
    rewrite (settleRequest_inflight k o (dropRequest i c) (state c)); auto.
    apply (reachable_settled c Hr' Hm').
Qed.

(** C8: a forward geocode issues at most one request, a GET of the places
    endpoint with the URL-encoded query, the access token, a proximity
    parameter exactly when a hint is configured and a bbox parameter exactly
    when a bounding box is configured (and none at all when the query cannot
    be encoded); a reverse geocode issues one GET with longitude, latitude and
    the access token only; no continuation issues a request, so nothing is
    retried. *)
Theorem geocode_requests_have_the_documented_shape :
  (forall (p : Props) (s : cells) (query : jsstring)
          (hint : option (num * num)) (bbox : option (num * num * num * num)),
      URI.encodeURIComponent (value (own p)) = Some query ->
      option_map (@fields _) (geocodeHint (mapConfig (connected p)))
      = option_map hintArray hint ->
      option_map (@fields _) (geocodeBoundingBox (mapConfig (connected p)))
      = option_map bboxArray bbox ->
      fetches (log (doGeocode p s))
      = [Fetch GET (specForwardUrl query hint bbox) ForwardGeocode])
  /\ (forall (p : Props) (s : cells),
         URI.encodeURIComponent (value (own p)) = None ->
         fetches (log (doGeocode p s)) = [])
  /\ (forall (p : Props) (s : cells),
         isMapDraggingOrZooming (connected p) = false ->
         fetches (log (reverseGeocodeEffect p s))
         = [Fetch GET
              (specReverseUrl
                 (longitude (fields (mapViewport (connected p))))
                 (latitude (fields (mapViewport (connected p)))))
              (ReverseGeocode (name (own p)))])
  /\ (forall (k : continuation) (o : outcome) (s : cells),
         fetches (log (settle k o s)) = []).
Proof.
  repeat split.
  - intros p s query hint bbox Hq Hh Hb.
    rewrite doGeocode_run. unfold forwardUrl. rewrite Hq.
    unfold log, fetches, forwardUrlOf, specForwardUrl, placesEndpoint.
    simpl. repeat f_equal.
    + destruct (geocodeHint (mapConfig (connected p))) as [h | ],
        hint as [[lng lat] | ]; try discriminate; [ | reflexivity].
      simpl in Hh. injection Hh as ->. reflexivity.
    + destruct (geocodeBoundingBox (mapConfig (connected p))) as [b | ],
        bbox as [[[[w so] e] n] | ]; try discriminate; [ | reflexivity].
      simpl in Hb. injection Hb as ->. reflexivity.
  - intros p s Hq. rewrite doGeocode_run. unfold forwardUrl. rewrite Hq.
    reflexivity.
  - intros p s Hd. rewrite reverseGeocodeEffect_run, Hd. reflexivity.
  - apply settle_no_fetch.
Qed.

(** C9: in every rendered state the spinner is shown exactly when the
    loading flag is true and the search button exactly when it is false, so
    the two are never shown together. *)
Theorem spinner_and_button_exclude_each_other (p : Props) (s : cells) :
  spinner (render p s) = isGeocoding s
  /\ buttonShown (render p s) = negb (isGeocoding s)
  /\ spinner (render p s) && buttonShown (render p s) = false.
Proof.
  unfold buttonShown. simpl. destruct (isGeocoding s); auto.
Qed.

(** C10: [doGeocode] first sets the loading flag, then clears the error
    flag, and only then issues its request, so the banner is hidden in the
    render that follows the invocation; the reverse geocode effect sets the
    loading flag before its request and does not write the error flag. *)
Theorem lookup_start_writes (p : Props) (s : cells) :
  log (doGeocode p s)
  = SetIsGeocoding true :: SetIsWithGeocodingError false
    :: match forwardUrl p with
       | inr url => [Fetch GET url ForwardGeocode]
       | inl _ => []
       end
  /\ final (doGeocode p s) = withFlags s true false
  /\ bannerOpacity (render p (final (doGeocode p s))) = 0%N
  /\ log (reverseGeocodeEffect p s)
     = (if isMapDraggingOrZooming (connected p) then []
        else [SetIsGeocoding true;
              Fetch GET (reverseUrlOf (fields (mapViewport (connected p))))
                    (ReverseGeocode (name (own p)))])
  /\ final (reverseGeocodeEffect p s)
     = (if isMapDraggingOrZooming (connected p) then s
        else withFlags s true (isWithGeocodingError s)).
Proof.
  rewrite doGeocode_run, reverseGeocodeEffect_run.
  destruct (isMapDraggingOrZooming (connected p)); repeat split.
Qed.

(** ** Claims about the component over time *)

(** C1: a forward or reverse geocode continuation that runs after the
    unmount cleanup, on its success or its failure branch, writes no cell
    (all it may do is log to the console), so the loading and the error flag
    keep their values; the mount flag starts true, is written only by the
    teardown, once and to [false], and once false stays false. *)
Theorem unmounted_continuations_leave_the_flags
    (k : continuation) (o : outcome) (s : cells) :
  isMounted s = false ->
  (final (settle k o s) = s
   /\ cellWrites (log (settle k o s)) = []
   /\ consoleOnly (log (settle k o s)) = true)
  /\ (forall (i : nat) (c : config),
         isMounted (state c) = false ->
         state (fst (step (Settle i o) c)) = state c)
  /\ isMounted initialCells = true
  /\ (forall c : config,
         isMounted (state c) = true ->
         isMounted (state (fst (step Unmount c))) = false)
  /\ (forall (es : list event) (c : config),
         isMounted (state c) = false ->
         isMounted (state (fst (run es c))) = false)
  /\ (forall (p : Props) (es : list event),
         mountWrites (snd (mount p) ++ snd (run es (fst (mount p))))
         = if isMounted (state (fst (run es (fst (mount p)))))
           then [] else [SetIsMounted false]).
Proof.
  intros Hm. destruct (settle_unmounted k o s Hm) as (Hf & _ & Hc).
  repeat split; auto using consoleOnly_no_writes.
  - intros i c Hc'. simpl.
    destruct (nth_error (inflight c) i); [ | reflexivity].
    apply (settleRequest_unmounted _ o (dropRequest i c)). exact Hc'.
  - intros c Hc'. simpl. rewrite Hc'. reflexivity.
  - intros es c Hc'. apply (proj2 (tearsDownOnce_run es c)). exact Hc'.
  - intros p es. rewrite mountWrites_app, tearsDownOnce_mount.
    destruct (tearsDownOnce_run es (fst (mount p))) as [Hw Hk].
    rewrite Hw.
    destruct (isMounted (state (fst (mount p)))).
    + destruct (isMounted (state (fst (run es (fst (mount p))))));
        reflexivity.
    + rewrite (Hk eq_refl). reflexivity.
Qed.

(** C2: however many viewport updates arrive while the drag/zoom flag is
    true, no request is issued; the update that then arrives with the flag
    false issues exactly one, the reverse geocode of that update's
    centre. *)
Theorem reverse_geocode_waits_for_the_map_to_rest
    (c : config) (updates : list (object MapViewport))
    (vp : object MapViewport) :
  reachable c ->
  isMounted (state c) = true ->
  isMapDraggingOrZooming (connected (props c)) = true \/ updates <> [] ->
  fetches (snd (run (map (fun v => ViewportUpdate v true) updates) c)) = []
  /\ fetches
       (snd (step (ViewportUpdate vp false)
               (fst (run (map (fun v => ViewportUpdate v true) updates) c))))
     = [Fetch GET
          (specReverseUrl (longitude (fields vp)) (latitude (fields vp)))
          (ReverseGeocode (name (own (props c))))].
Proof.
  intros Hr Hm Hd.
  destruct (run_dragging updates c (reachable_settled c Hr) Hm)
    as (Hl & Hs & Hst & Ho & Hf).
  split.
  - rewrite Hl. reflexivity.
  - rewrite step_viewport_rest; auto.
    + rewrite Ho. reflexivity.
    + rewrite Hst. exact Hm.
    + rewrite Hf. destruct updates; auto. destruct Hd; congruence.
Qed.

(** C4, as amended: on a mounted component whose banner is hidden, a failing
    lookup (a failure or a not-found result) makes the banner visible and arms
    one timer, due 5000ms later; if nothing else happens the banner is hidden
    once these 5000ms have passed, and, when no earlier timer was pending, it
    is visible at every moment before; on a mounted component a lookup that
    succeeds hides the banner at once. *)
Theorem error_banner_shows_and_times_out
    (c : config) (i : nat) (k : continuation) (o : outcome) :
  reachable c ->
  isMounted (state c) = true ->
  isWithGeocodingError (state c) = false ->
  nth_error (inflight c) i = Some k ->
  classify k o <> Found ->
  isWithGeocodingError (state (fst (step (Settle i o) c))) = true
  /\ timers (fst (step (Settle i o) c)) = timers c ++ [(clock c + 5000)%N]
  /\ isWithGeocodingError
       (state (fst (step (Advance 5000) (fst (step (Settle i o) c)))))
     = false
  /\ (timers c = [] ->
      forall dt : N,
        (dt < 5000)%N ->
        isWithGeocodingError
          (state (fst (step (Advance dt) (fst (step (Settle i o) c)))))
        = true)
  /\ (forall (c' : config) (j : nat) (k' : continuation) (o' : outcome),
         reachable c' ->
         isMounted (state c') = true ->
         nth_error (inflight c') j = Some k' ->
         classify k' o' = Found ->
         isWithGeocodingError (state (fst (step (Settle j o') c'))) = false).
Proof.
  intros Hr Hm He Hi Hc.
  pose proof (reachable_settled c Hr Hm) as Hs.
  destruct (settle_failing k o (state c) Hm Hc) as (Hf & _).
  assert (Hshown : fst (step (Settle i o) c)
                   = atRest (dropRequest i c) errorShown true).
  { cbn [step]. rewrite Hi.
    rewrite settleRequest_timers; auto.
    cbn [state dropRequest]. rewrite Hf. reflexivity. }
  rewrite Hshown. cbn [state atRest timers dropRequest clock].
  repeat split.
  - cbn [step]. unfold advance.
    cbn [timers atRest clock dropRequest].
    destruct (filter_due_nonempty (clock c + 5000)%N (clock c + 5000)%N
                (timers c ++ [(clock c + 5000)%N])) as [n Hn].
    + apply in_or_app. right. left. reflexivity.
    + apply N.le_refl.
    + rewrite Hn, fireTimers_mounted; reflexivity.
  - intros Ht dt Hdt. cbn [step]. unfold advance.
    cbn [timers atRest clock dropRequest]. rewrite Ht. cbn [app filter].
    replace (clock c + 5000 <=? clock c + dt)%N with false
      by (symmetry; apply N.leb_gt; lia).
    reflexivity.
  - intros c' j k' o' Hr' Hm' Hj Hk. cbn [step]. rewrite Hj.
    rewrite (settleRequest_state k' o' (dropRequest j c') (state c'));
      auto.
    + cbn [state dropRequest].
      rewrite (proj1 (settle_found k' o' (state c') Hm' Hk)). reflexivity.
    + apply (reachable_settled c' Hr' Hm').
Qed.

(** C5: the callback of the 5000ms timer clears the error flag whatever the
    mount flag says, whereas every request continuation writes nothing once
    the mount flag is false; hence a timer that comes due after teardown
    still clears the error flag. *)
Theorem error_timer_ignores_the_mount_guard :
  (forall s : cells,
      errorTimerCallback s
      = (inr tt, withFlags s (isGeocoding s) false,
         [SetIsWithGeocodingError false]))
  /\ (forall (k : continuation) (o : outcome) (s : cells),
         isMounted s = false ->
         final (settle k o s) = s /\ cellWrites (log (settle k o s)) = [])
  /\ (forall (c : config) (dt t : N),
         isMounted (state c) = false ->
         In t (timers c) ->
         (t <= clock c + dt)%N ->
         state (fst (step (Advance dt) c))
         = {| isGeocoding := isGeocoding (state c);
              isWithGeocodingError := false;
              isMounted := false |}).
Proof.
  repeat split.
  - apply (settle_unmounted k o s H).
  - apply consoleOnly_no_writes, (settle_unmounted k o s H).
  - intros c dt t Hm Hin Hle. cbn [step]. unfold advance.
    destruct (filter_due_nonempty (clock c + dt)%N t (timers c) Hin Hle)
      as [n Hn].
    rewrite Hn, fireTimers_unmounted by exact Hm.
    unfold withFlags. cbn [state]. rewrite Hm. reflexivity.
Qed.

(** C7: whenever the search button is on the page, its [onClick] is the very
    function the text input has as [onBlur], and a click and a blur take the
    component through the same transition, with the same request. *)
Theorem click_and_blur_run_the_same_geocode (c : config) :
  isGeocoding (state c) = false ->
  button (render (props c) (state c))
  = Some (onBlur (textInput (render (props c) (state c))))
  /\ step Click c = step Blur c.
Proof.
  intros H. simpl. rewrite H. split; reflexivity.
Qed.

(** ** Further properties of the component *)

(** ** encodeURIComponent *)

Lemma lor_below_256 (a b : N) :
  (a < 256)%N -> (b < 256)%N -> (N.lor a b < 256)%N.
Proof.
  intros Ha Hb. destruct (N.eq_dec (N.lor a b) 0) as [E | E].
  - rewrite E. reflexivity.
  - change 256%N with (2 ^ 8)%N. apply N.log2_lt_pow2; [lia | ].
    rewrite N.log2_lor.
    assert (La : (N.log2 a < 8)%N).
    { destruct (N.eq_dec a 0) as [-> | Na]; [reflexivity | ].
      apply N.log2_lt_pow2; [lia | exact Ha]. }
    assert (Lb : (N.log2 b < 8)%N).
    { destruct (N.eq_dec b 0) as [-> | Nb]; [reflexivity | ].
      apply N.log2_lt_pow2; [lia | exact Hb]. }
    lia.
Qed.

Lemma shiftr_below (a k bound : N) :
  (a < bound * 2 ^ k)%N -> (N.shiftr a k < bound)%N.
Proof.
  intros H. rewrite N.shiftr_div_pow2.
  apply N.Div0.div_lt_upper_bound. lia.
Qed.

Lemma land_63_below (a : N) : (N.land a 63 < 64)%N.
Proof.
  change 63%N with (N.ones 6). rewrite N.land_ones.
  apply N.mod_lt. discriminate.
Qed.

Lemma land_15_below (a : N) : (N.land a 15 < 16)%N.
Proof.
  change 15%N with (N.ones 4). rewrite N.land_ones.
  apply N.mod_lt. discriminate.
Qed.

Lemma hexDigit_unreserved (d : N) :
  (d < 16)%N -> URI.uriUnreserved (URI.hexDigit d) = true.
Proof.
  intros H. unfold URI.hexDigit.
  assert (Hn : (N.to_nat d < 16)%nat) by lia.
  destruct (N.to_nat d) as [ | n]; [reflexivity | ].
  do 15 (destruct n as [ | n]; [reflexivity | ]). lia.
Qed.

Lemma percent_urlSafe (octet : N) :
  (octet < 256)%N -> forallb urlSafe (URI.percent octet) = true.
Proof.
  intros H. unfold URI.percent, urlSafe. cbn [forallb].
  rewrite (hexDigit_unreserved (N.shiftr octet 4))
    by (apply shiftr_below; exact H).
  rewrite (hexDigit_unreserved (N.land octet 15)) by apply land_15_below.
  reflexivity.
Qed.

Lemma utf8_octets (cp : N) :
  (cp < 1114112)%N -> Forall (fun o => (o < 256)%N) (URI.utf8 cp).
Proof.
  intros H. unfold URI.utf8.
  assert (Hc : forall k, (N.lor 128 (N.land (N.shiftr cp k) 63) < 256)%N).
  { intros k. apply lor_below_256; [reflexivity | ].
    pose proof (land_63_below (N.shiftr cp k)). lia. }
  destruct (cp <? 128)%N eqn:E1;
    [apply N.ltb_lt in E1; repeat constructor; lia | ].
  destruct (cp <? 2048)%N eqn:E2.
  { apply N.ltb_lt in E2. repeat constructor; auto.
    apply lor_below_256; [reflexivity | ].
    pose proof (shiftr_below cp 6 32). lia. }
  destruct (cp <? 65536)%N eqn:E3.
  { apply N.ltb_lt in E3. repeat constructor; auto.
    apply lor_below_256; [reflexivity | ].
    pose proof (shiftr_below cp 12 16). lia. }
  repeat constructor; auto.
  apply lor_below_256; [reflexivity | ].
  pose proof (shiftr_below cp 18 5). lia.
Qed.

Lemma escape_urlSafe (cp : N) :
  (cp < 1114112)%N -> forallb urlSafe (URI.escape cp) = true.
Proof.
  intros H. unfold URI.escape.
  induction (utf8_octets cp H) as [ | o os Ho _ IH]; [reflexivity | ].
  cbn [flat_map]. rewrite forallb_app, (percent_urlSafe o Ho), IH.
  reflexivity.
Qed.

Lemma encodeURIComponent_urlSafe_upto (n : nat) (s q : jsstring) :
  (List.length s <= n)%nat ->
  codeUnits s ->
  URI.encodeURIComponent s = Some q ->
  forallb urlSafe q = true.
Proof.
  revert s q. induction n as [ | n IH]; intros s q Hn Hs He.
  - destruct s; [ | simpl in Hn; lia]. injection He as <-. reflexivity.
  - destruct s as [ | u rest]; [injection He as <-; reflexivity | ].
    inversion Hs as [ | ? ? Hu Hrest]; subst.
    simpl in Hn. cbn [URI.encodeURIComponent] in He.
    destruct (URI.uriUnreserved u) eqn:Eu.
    { destruct (URI.encodeURIComponent rest) as [q' | ] eqn:Er;
        [ | discriminate].
      injection He as <-. cbn [forallb]. unfold urlSafe at 1. rewrite Eu.
      apply (IH rest q'); auto. lia. }
    destruct (URI.isTrailSurrogate u) eqn:Et; [discriminate | ].
    destruct (URI.isLeadSurrogate u) eqn:El.
    { destruct rest as [ | lo rest']; [discriminate | ].
      destruct (URI.isTrailSurrogate lo) eqn:Elo; [ | discriminate].
      destruct (URI.encodeURIComponent rest') as [q' | ] eqn:Er;
        [ | discriminate].
      injection He as <-.
      inversion Hrest as [ | ? ? Hlo Hrest']; subst.
      rewrite forallb_app. rewrite escape_urlSafe.
      - apply (IH rest' q'); auto. simpl in Hn. lia.
      - unfold URI.isLeadSurrogate, URI.isTrailSurrogate, URI.between in *.
        apply andb_prop in El, Elo. destruct El as [El1 El2].
        destruct Elo as [Elo1 Elo2].
        apply N.leb_le in El1, El2, Elo1, Elo2. lia. }
    destruct (URI.encodeURIComponent rest) as [q' | ] eqn:Er;
      [ | discriminate].
    injection He as <-. rewrite forallb_app, escape_urlSafe by lia.
    apply (IH rest q'); auto. lia.
Qed.

Lemma codeUnits_forallb (s : jsstring) :
  forallb (fun u => (u <? 65536)%N) s = true -> codeUnits s.
Proof.
  intros H. apply Forall_forall. intros u Hu.
  rewrite forallb_forall in H. apply N.ltb_lt. exact (H u Hu).
Qed.

(** X1: [encodeURIComponent] of a string of 16-bit code units, when it
    returns, yields nothing but unreserved characters and percent signs; so
    the query that [doGeocode] puts into the request path holds none of
    [& = ? # / +] and no space, and cannot end the path segment or add a
    parameter. *)
Theorem encoded_query_is_url_safe (s q : jsstring) :
  codeUnits s ->
  URI.encodeURIComponent s = Some q ->
  forallb urlSafe q = true
  /\ (forall u, In u (lit "&=?#/+ ") -> ~ In u q).
Proof.
  intros Hs He.
  assert (H : forallb urlSafe q = true)
    by exact (encodeURIComponent_urlSafe_upto (List.length s) s q
                (le_n _) Hs He).
  split; [exact H | ].
  intros u Hu Hin.
  rewrite forallb_forall in H. specialize (H u Hin).
  cbv in Hu.
  repeat (destruct Hu as [<- | Hu]; [vm_compute in H; discriminate H | ]).
  exact Hu.
Qed.

(** X2: [encodeURIComponent] does not throw on a string without surrogate
    code units, and it returns a string of unreserved characters as it
    is. *)
Theorem encodeURIComponent_total_without_surrogates (s : jsstring) :
  (forallb (fun u => negb (isSurrogate u)) s = true ->
   URI.encodeURIComponent s <> None)
  /\ (forallb URI.uriUnreserved s = true ->
      URI.encodeURIComponent s = Some s).
Proof.
  split.
  - induction s as [ | u rest IH]; [discriminate | ].
    cbn [forallb URI.encodeURIComponent]. intros H.
    apply andb_prop in H. destruct H as [Hu Hr].
    unfold isSurrogate in Hu. apply negb_true_iff, orb_false_elim in Hu.
    destruct Hu as [Hl Ht]. rewrite Hl, Ht.
    specialize (IH Hr).
    destruct (URI.encodeURIComponent rest); [ | congruence].
    destruct (URI.uriUnreserved u); discriminate.
  - induction s as [ | u rest IH]; [reflexivity | ].
    cbn [forallb URI.encodeURIComponent]. intros H.
    apply andb_prop in H. destruct H as [Hu Hr].
    rewrite Hu, (IH Hr). reflexivity.
Qed.

(** [data.features && data.features[0] && data.features[0][key]] throws on
    a [null] document only. *)
Lemma firstFeature_throws (key : string) (data : json) :
  (exists e, firstFeature key data = inl e) <-> data = JNull.
Proof.
  split.
  - intros [e He]. unfold firstFeature in He.
    destruct data; try reflexivity; simpl getField in He; try discriminate.
    cbv beta iota in He.
    destruct (truthy (member (lit "features") members)) eqn:Tf;
      [ | discriminate].
    destruct (member (lit "features") members) as [f | ];
      [ | discriminate].
    destruct f as [ | b | n | s | items | ms]; try discriminate;
      simpl getIndex in He; cbv beta iota in He;
      try (destruct (truthy None); discriminate).
    + destruct s; simpl in He; discriminate.
    + destruct items as [ | g rest]; simpl in He; [discriminate | ].
      destruct g; simpl in He;
        repeat match type of He with
               | context [if ?c then _ else _] => destruct c
               end; discriminate.
    + destruct (member (indexKey 0) ms) as [g | ]; simpl in He;
        [ | discriminate].
      destruct g; simpl in He;
        repeat match type of He with
               | context [if ?c then _ else _] => destruct c
               end; discriminate.
  - intros ->. exists TypeError. reflexivity.
Qed.

Lemma viewportPayload_throws (g : jsval) :
  truthy g = true ->
  (exists e, viewportPayload g = inl e) <-> coordinatesMissing g = true.
Proof.
  intros Hg. unfold viewportPayload, coordinatesMissing.
  destruct g as [[ | b | n | s | items | ms] | ]; try discriminate Hg;
    simpl getField; cbv beta iota;
    try (split; [reflexivity | intros _; exists TypeError; reflexivity]).
  destruct (member (lit "coordinates") ms) as [[ | b | n | s | items | ms'] | ];
    simpl;
    try (split; [reflexivity | intros _; exists TypeError; reflexivity]);
    split; try discriminate; intros [e He]; discriminate He.
Qed.

(** X10: what makes a continuation throw: the reverse one throws on a
    [null] document and on nothing else; the forward one throws on a [null]
    document and, when mounted, on a truthy geometry whose [coordinates] is
    [undefined] or [null], and on nothing else. *)
Theorem continuation_throws_on_null_or_missing_coordinates
    (data : json) (s : cells) :
  (forall fieldName,
      (exists e, result (reverseThen fieldName data s) = inl e)
      <-> data = JNull)
  /\ (isMounted s = true ->
      ((exists e, result (forwardThen data s) = inl e)
       <-> data = JNull
           \/ exists geometry,
                locationGeometry data = inr geometry
                /\ truthy geometry = true
                /\ coordinatesMissing geometry = true))
  /\ (isMounted s = false ->
      ((exists e, result (forwardThen data s) = inl e) <-> data = JNull)).
Proof.
  repeat split.
  - intros [e He]. rewrite reverseThen_run in He.
    apply (firstFeature_throws "place_name"). unfold placeName in He.
    destruct (firstFeature "place_name" data) as [e' | place]; eauto.
    destruct (truthy place && isMounted s), (isMounted s); discriminate.
  - intros ->. exists TypeError. reflexivity.
  - intros [e He]. rewrite forwardThen_run, H in He.
    unfold locationGeometry in *.
    destruct (firstFeature "geometry" data) as [e' | g] eqn:Eg.
    + left. apply (firstFeature_throws "geometry"). eauto.
    + right. exists g. rewrite andb_true_r in He.
      destruct (truthy g) eqn:Tg; [ | discriminate].
      repeat split. apply viewportPayload_throws; auto.
      destruct (viewportPayload g); [eauto | discriminate].
  - intros [-> | (g & Hg & Tg & Hc)].
    + exists TypeError. reflexivity.
    + apply viewportPayload_throws in Hc; auto. destruct Hc as [e He].
      exists e. rewrite forwardThen_run, Hg, Tg, H, He. reflexivity.
  - intros [e He]. rewrite forwardThen_run, H in He.
    apply (firstFeature_throws "geometry"). unfold locationGeometry in He.
    destruct (firstFeature "geometry" data) as [e' | g]; eauto.
    rewrite andb_false_r in He. discriminate.
  - intros ->. exists TypeError. reflexivity.
Qed.

(** X9: [console.error] is called exactly once for a rejected request,
    with the message of the lookup's kind and the error; for a response of a
    mounted component it is called exactly when the continuation throws (with
    the TypeError), and not at all for a found or a not-found result. *)
Theorem console_logs_failures_only
    (k : continuation) (o : outcome) (s : cells) :
  (forall err,
      consoleErrors (log (settle k (Rejected err) s))
      = [ConsoleError (catchMessage k) err])
  /\ (isMounted s = true ->
      consoleErrors (log (settle k o s))
      = match o, classify k o with
        | Rejected err, _ => [ConsoleError (catchMessage k) err]
        | Resolved _, Failed => [ConsoleError (catchMessage k) TypeError]
        | Resolved _, _ => []
        end).
Proof.
  split.
  - intros err. destruct k; simpl;
      rewrite ?forwardCatch_run, ?reverseCatch_run;
      destruct (isMounted s); reflexivity.
  - destruct s as [g e m]; simpl; intros ->.
    unfold classify.
    destruct k, o; simpl settle; simpl thenHandler; simpl catchHandler;
      unfold catch; rewrite ?forwardThen_run, ?reverseThen_run;
      rewrite ?forwardCatch_run, ?reverseCatch_run; try reflexivity.
    + unfold locationGeometry in *.
      pose proof (firstFeature_throws "geometry" data) as Hn.
      destruct (firstFeature "geometry" data) as [e' | geo] eqn:Ef.
      * assert (data = JNull) by (apply Hn; eauto). subst data.
        injection Ef as <-.
        cbn -[forwardCatch]. rewrite forwardCatch_run. reflexivity.
      * destruct (truthy geo) eqn:Tg; cbn -[forwardCatch viewportPayload];
          [ | reflexivity].
        pose proof (viewportPayload_throws geo Tg) as Hv.
        destruct (viewportPayload geo) as [e' | pl] eqn:Ev;
          cbn -[forwardCatch]; [ | reflexivity].
        rewrite forwardCatch_run.
        assert (e' = TypeError).
        { revert Ev. unfold viewportPayload.
          destruct (getField geo "coordinates") as [e1 | c] eqn:Ec.
          - destruct geo as [[ | | | | | ] | ]; simpl in Ec; congruence.
          - destruct c as [[ | | | | | ] | ]; simpl; congruence. }
        subst e'. reflexivity.
    + unfold placeName in *.
      pose proof (firstFeature_throws "place_name" data) as Hn.
      destruct (firstFeature "place_name" data) as [e' | place] eqn:Ef.
      * assert (data = JNull) by (apply Hn; eauto). subst data.
        injection Ef as <-.
        cbn -[reverseCatch]. rewrite reverseCatch_run. reflexivity.
      * destruct (truthy place); reflexivity.
Qed.

(** X11: an object response of a mounted component that has no
    [features], a [null] one or an empty array is handled without a throw:
    the loading flag is cleared, the banner is shown, and nothing is logged,
    emitted or handed to the form. *)
Theorem missing_or_empty_features_show_not_found
    (k : continuation) (members : list (jsstring * json)) (s : cells) :
  isMounted s = true ->
  member (lit "features") members = None
  \/ member (lit "features") members = Some JNull
  \/ member (lit "features") members = Some (JArr []) ->
  settle k (Resolved (JObj members)) s
  = (inr tt, errorShown,
     [SetIsGeocoding false; SetIsWithGeocodingError true]).
Proof.
  destruct s as [g e m]; simpl; intros -> H.
  destruct k; simpl thenHandler; unfold catch;
    rewrite ?forwardThen_run, ?reverseThen_run;
    unfold locationGeometry, placeName, firstFeature; simpl getField;
    destruct H as [-> | [-> | ->]]; reflexivity.
Qed.

(** X12: the coordinates array is not validated: with fewer than two
    elements the [setMapViewport] event is emitted all the same, with an
    undefined latitude (and an undefined longitude when the array is
    empty). *)
Theorem short_coordinates_are_not_checked
    (data : json) (coordinates : list json) (s : cells) :
  isMounted s = true ->
  featureCoordinates data = Some coordinates ->
  (List.length coordinates < 2)%nat ->
  settle ForwardGeocode (Resolved data) s
  = (inr tt, withFlags s false false,
     [SetIsGeocoding false; SetIsWithGeocodingError false;
      Emit (lit "setMapViewport")
        {| payloadLatitude := None;
           payloadLongitude := nth_error coordinates 0;
           zoom := 14;
           transitionDuration := 1000 |}]).
Proof.
  intros Hm Hc Hl.
  destruct (featureCoordinates_payload data coordinates Hc)
    as (geometry & Hg & Ht & Hp).
  assert (Hn : nth_error coordinates 1 = None)
    by (apply nth_error_None; lia).
  rewrite Hn in Hp.
  simpl settle. simpl thenHandler. unfold catch.
  rewrite forwardThen_run, Hg, Ht, Hm, Hp. reflexivity.
Qed.

(** ** More of the host *)

Lemma commit_effects (c : config) (r : (jserror + unit) * cells * list action) :
  isMounted (state c) = true ->
  effectsOf (reverseDepsChanged (rendered c) (depsOf (props c) (state c)))
            (triggerDepsChanged (rendered c) (depsOf (props c) (state c)))
            (errorDepsChanged (rendered c) (depsOf (props c) (state c)))
            (props c) (isWithGeocodingError (state c)) (state c) = r ->
  result r = inr tt ->
  commit c = (install (withRendered c (depsOf (props c) (state c))) r, log r).
Proof.
  intros Hm Hr Hres. unfold commit. rewrite Hm. unfold runEffects.
  change (depError (depsOf (props c) (state c)))
    with (isWithGeocodingError (state c)).
  cbv zeta.
  change (state (withRendered c (depsOf (props c) (state c))))
    with (state c).
  rewrite Hr, Hres. reflexivity.
Qed.

(** The second render of a flush finds the dependencies the first one left,
    and at most a cleared error flag. *)
Lemma commit_second (c : config) (s0 : cells) :
  isMounted (state c) = true ->
  rendered c = depsOf (props c) s0 ->
  isWithGeocodingError (state c) = isWithGeocodingError s0
  \/ isWithGeocodingError (state c) = false ->
  commit c = (atRest c (state c) false, []).
Proof.
  intros Hm Hr He. rewrite commit_quiet; auto.
  - rewrite Hr. cbn [depError depsOf]. unfold atRest.
    assert (Ha : xorb (isWithGeocodingError s0)
                      (isWithGeocodingError (state c))
                 && isWithGeocodingError (state c) = false).
    { destruct He as [-> | ->];
        [rewrite xorb_nilpotent; reflexivity | apply andb_false_r]. }
    rewrite Ha. reflexivity.
  - rewrite Hr, reverseDepsChanged_same. reflexivity.
  - rewrite Hr, triggerDepsChanged_refl. reflexivity.
Qed.


Lemma flush_install_pair (c : config)
    (r : (jserror + unit) * cells * list action) (s0 : cells) :
  isMounted (final r) = true ->
  rendered c = depsOf (props c) s0 ->
  requestsOf (log r) = [] ->
  timeoutsOf (clock c) (log r) = [] ->
  flush (install c r)
  = (atRest c (final r)
       (negb (isWithGeocodingError s0) && isWithGeocodingError (final r)),
     if negb (isWithGeocodingError s0) && isWithGeocodingError (final r)
     then [SetTimeout 5000] else []).
Proof.
  intros Hm Hr Hq Ht. rewrite flush_quiet; simpl; auto.
  - unfold atRest. rewrite Hr, Hq, Ht, !app_nil_r. simpl.
    destruct (isWithGeocodingError s0), (isWithGeocodingError (final r));
      reflexivity.
  - rewrite Hr, reverseDepsChanged_same. reflexivity.
  - rewrite Hr, triggerDepsChanged_refl. reflexivity.
Qed.

Lemma atRest_settled (c : config) :
  settled c ->
  isMounted (state c) = true ->
  atRest c (state c) false = c.
Proof.
  intros Hs Hm. unfold atRest. rewrite <- (Hs Hm), app_nil_r.
  destruct c; reflexivity.
Qed.


(** X15: a viewport update of a mounted component issues the reverse
    request for the new viewport exactly when the map is at rest in it and
    the viewport object or the drag/zoom flag differs from the last render;
    otherwise the render does nothing.  The viewport is compared by identity,
    not by its coordinates. *)
Theorem viewport_update_requests
    (c : config) (vp : object MapViewport) (dragging : bool) :
  reachable c ->
  isMounted (state c) = true ->
  snd (step (ViewportUpdate vp dragging) c)
  = if (negb (identity (mapViewport (connected (props c))) =? identity vp)%N
        || xorb (isMapDraggingOrZooming (connected (props c))) dragging)
       && negb dragging
    then [SetIsGeocoding true;
          Fetch GET (reverseUrlOf (fields vp))
                (ReverseGeocode (name (own (props c))))]
    else [].
Proof.
  intros Hr Hm. pose proof (reachable_settled c Hr Hm) as Hs.
  cbn [step]. rewrite Hm.
  set (p' := withViewport (props c) vp dragging).
  unfold flush, andThen. cbn [snd].
  set (due := negb (identity (mapViewport (connected (props c)))
                    =? identity vp)%N
              || xorb (isMapDraggingOrZooming (connected (props c)))
                      dragging).
  assert (Hrev : reverseDepsChanged (rendered c) (depsOf p' (state c))
                 = due)
    by (rewrite Hs; reflexivity).
  assert (Htrig : triggerDepsChanged (rendered c) (depsOf p' (state c))
                  = false)
    by (rewrite Hs; apply triggerDepsChanged_same; reflexivity).
  assert (Herr : errorDepsChanged (rendered c) (depsOf p' (state c))
                 = false)
    by (rewrite Hs; unfold errorDepsChanged; cbn; apply xorb_nilpotent).
  erewrite (commit_effects (withProps c p')); [ | exact Hm | | ].
  2: { change (rendered (withProps c p')) with (rendered c).
       change (props (withProps c p')) with p'.
       change (state (withProps c p')) with (state c).
       rewrite Hrev, Htrig, Herr, effectsOf_run. cbv zeta.
       cbn [andb]. reflexivity. }
  2: { cbn [result fst]. destruct (forwardUrl p'); reflexivity. }
  cbn [fst snd log].
  rewrite (commit_second _ (state c)).
  - cbn [snd]. rewrite app_nil_r.
    change (isMapDraggingOrZooming (connected p')) with dragging.
    destruct (due && negb dragging), (forwardUrl p'); reflexivity.
  - cbn [state install final fst snd].
    destruct (due && negb (isMapDraggingOrZooming (connected p')));
      exact Hm.
  - reflexivity.
  - cbn [state install final fst snd].
    destruct (due && negb (isMapDraggingOrZooming (connected p'))); auto.
Qed.


(** X16: typing into the input of a mounted component calls [onChange]
    with the input's name and the typed text and does nothing else: no cell
    is written, no request is issued, the configuration stays as it is. *)
Theorem typing_only_reports_to_the_form (c : config) (text : jsstring) :
  reachable c ->
  isMounted (state c) = true ->
  step (InputChange text) c
  = (c, [OnChange (name (own (props c))) (Some (JStr text))]).
Proof.
  intros Hr Hm. pose proof (reachable_settled c Hr) as Hs.
  cbn [step]. rewrite Hm.
  cbn [render textInput onChange inputName]. unfold andThen, runHandler.
  cbn [fst snd]. unfold tell.
  rewrite (flush_install_pair c _ (state c)); auto.
  cbn [final fst snd log result]. rewrite andb_negb_l.
  rewrite atRest_settled by auto. reflexivity.
Qed.

Lemma settle_reverse_found (c : config) (i : nat) (fieldName : jsstring)
    (data : json) (place : jsval) :
  settled c ->
  isMounted (state c) = true ->
  nth_error (inflight c) i = Some (ReverseGeocode fieldName) ->
  placeName data = inr place ->
  truthy place = true ->
  step (Settle i (Resolved data)) c
  = (atRest (dropRequest i c) (withFlags (state c) false false) false,
     [SetIsGeocoding false; SetIsWithGeocodingError false;
      OnChange fieldName place]).
Proof.
  intros Hs Hm Hi Hp Ht. cbn [step]. rewrite Hi.
  cbn [settleRequest thenHandler]. cbn [state dropRequest].
  rewrite reverseThen_run, Hp, Ht, Hm. cbn [andb result fst].
  unfold andThen. cbn [fst snd].
  rewrite (flush_install_pair (dropRequest i c) _ (state c));
    auto; try exact (Hs Hm).
  cbn [final fst snd log withFlags isWithGeocodingError].
  rewrite andb_false_r, !app_nil_r. reflexivity.
Qed.

(** X6: the response to a pending reverse lookup whose first feature has
    a truthy [place_name] is handed to [onChange] under the field name the
    request captured, in whatever state the mounted component is by then,
    also while the map is dragged again: the drag/zoom flag is read when the
    request is issued, not when its response arrives. *)
Theorem reverse_result_is_applied_even_while_dragging
    (c : config) (i : nat) (fieldName : jsstring) (data : json)
    (place : jsval) :
  reachable c ->
  isMounted (state c) = true ->
  nth_error (inflight c) i = Some (ReverseGeocode fieldName) ->
  placeName data = inr place ->
  truthy place = true ->
  snd (step (Settle i (Resolved data)) c)
  = [SetIsGeocoding false; SetIsWithGeocodingError false;
     OnChange fieldName place].
Proof.
  intros Hr Hm Hi Hp Ht.
  rewrite (settle_reverse_found c i fieldName data place); auto.
  apply reachable_settled. exact Hr.
Qed.

(** X7: responses are applied in the order they arrive: when the response
    to a later reverse lookup arrives before the response to an earlier one,
    [onChange] is called with the later place first and with the earlier
    place last, so the field ends up with the older result. *)
Theorem late_response_of_an_older_request_wins
    (c : config) (i j : nat) (n1 n2 : jsstring) (d1 d2 : json)
    (place1 place2 : jsval) :
  reachable c ->
  isMounted (state c) = true ->
  (i < j)%nat ->
  nth_error (inflight c) i = Some (ReverseGeocode n1) ->
  nth_error (inflight c) j = Some (ReverseGeocode n2) ->
  placeName d1 = inr place1 -> truthy place1 = true ->
  placeName d2 = inr place2 -> truthy place2 = true ->
  onChanges (snd (run [Settle j (Resolved d2); Settle i (Resolved d1)] c))
  = [OnChange n2 place2; OnChange n1 place1].
Proof.
  intros Hr Hm Hij Hi Hj Hp1 Ht1 Hp2 Ht2.
  pose proof (reachable_settled c Hr) as Hs.
  cbn [run]. unfold andThen.
  rewrite (settle_reverse_found c j n2 d2 place2); auto.
  cbn [fst snd].
  rewrite (settle_reverse_found _ i n1 d1 place1).
  - reflexivity.
  - intros _. reflexivity.
  - exact Hm.
  - cbn [inflight atRest dropRequest].
    rewrite nth_error_app1.
    + rewrite nth_error_firstn.
      destruct (Nat.ltb_spec i j); [exact Hi | lia].
    + rewrite length_firstn.
      assert (j < List.length (inflight c))%nat
        by (apply nth_error_Some; congruence).
      lia.
  - exact Hp1.
  - exact Ht1.
Qed.

Lemma settle_ends_loading (k : continuation) (o : outcome) (s : cells) :
  isMounted s = true -> isGeocoding (final (settle k o s)) = false.
Proof.
  intros Hm. destruct (classify k o) eqn:Ec.
  - rewrite (proj1 (settle_found k o s Hm Ec)). reflexivity.
  - rewrite (proj1 (settle_failing k o s Hm
                      ltac:(rewrite Ec; discriminate))). reflexivity.
  - rewrite (proj1 (settle_failing k o s Hm
                      ltac:(rewrite Ec; discriminate))). reflexivity.
Qed.

(** X8: whatever arrives for any pending request of a mounted component,
    a response or a failure, clears the loading flag and brings the search
    button back, also while other requests are still pending; the request
    itself leaves the pending ones and the others stay. *)
Theorem first_response_ends_loading
    (c : config) (i : nat) (k : continuation) (o : outcome) :
  reachable c ->
  isMounted (state c) = true ->
  nth_error (inflight c) i = Some k ->
  isGeocoding (state (fst (step (Settle i o) c))) = false
  /\ buttonShown (render (props c) (state (fst (step (Settle i o) c)))) = true
  /\ inflight (fst (step (Settle i o) c))
     = firstn i (inflight c) ++ skipn (S i) (inflight c).
Proof.
  intros Hr Hm Hi. pose proof (reachable_settled c Hr Hm) as Hs.
  cbn [step]. rewrite Hi.
  rewrite (settleRequest_state k o (dropRequest i c) (state c)); auto.
  rewrite (settleRequest_inflight k o (dropRequest i c) (state c)); auto.
  cbn [state dropRequest inflight]. unfold buttonShown. cbn [render button].
  rewrite (settle_ends_loading k o (state c) Hm). repeat split.
Qed.

(** *** After the teardown *)

Lemma consoleOnly_afterlife (l : list action) :
  consoleOnly l = true -> afterlife l = true.
Proof.
  induction l as [ | a l IH]; simpl; auto.
  destruct a; simpl; try discriminate. exact IH.
Qed.

Lemma afterlife_app (l1 l2 : list action) :
  afterlife l1 = true -> afterlife l2 = true -> afterlife (l1 ++ l2) = true.
Proof.
  intros H1 H2. unfold afterlife in *. rewrite forallb_app, H1, H2.
  reflexivity.
Qed.

Lemma afterlife_silent (l : list action) :
  afterlife l = true ->
  fetches l = [] /\ emits l = [] /\ onChanges l = [] /\ mountWrites l = [].
Proof.
  induction l as [ | a l IH]; simpl; auto.
  destruct a as [b | b | b | m u k | n p | n v | m e | d | e]; simpl;
    try discriminate; try (destruct b; try discriminate); auto.
Qed.

Lemma thenHandler_unmounted_run (k : continuation) (data : json) (s : cells) :
  isMounted s = false ->
  final (thenHandler k data s) = s /\ log (thenHandler k data s) = [].
Proof.
  intros H. destruct k; simpl; rewrite ?forwardThen_run, ?reverseThen_run.
  - destruct (locationGeometry data) as [e | g]; auto.
    rewrite H, andb_false_r. auto.
  - destruct (placeName data) as [e | g]; auto.
    rewrite H, andb_false_r. auto.
Qed.

Lemma catch_after_teardown (k : continuation) (err : jserror) (c : config) :
  isMounted (state c) = false ->
  afterlife (snd (andThen (runHandler (catchHandler k err) c) flush)) = true.
Proof.
  intros Hm.
  destruct (settle_unmounted k (Rejected err) (state c) Hm) as (Hf & Hr & Hc).
  simpl settle in *.
  unfold andThen, runHandler. cbn [fst snd].
  rewrite flush_unmounted by (cbn [state install]; rewrite Hf; exact Hm).
  rewrite Hr, !app_nil_r. apply consoleOnly_afterlife. exact Hc.
Qed.

Lemma andThen_pair (t : transition) (f : config -> transition) :
  andThen t f = (fst (f (fst t)), snd t ++ snd (f (fst t))).
Proof. reflexivity. Qed.

Lemma settleRequest_after_teardown (k : continuation) (o : outcome)
    (c : config) :
  isMounted (state c) = false ->
  afterlife (snd (settleRequest k o c)) = true.
Proof.
  intros Hm. destruct o as [err | data]; cbn [settleRequest].
  - apply catch_after_teardown. exact Hm.
  - destruct (thenHandler_unmounted_run k data (state c) Hm) as [Hf Hl].
    assert (Hi : isMounted (state (install c (thenHandler k data (state c))))
                 = false)
      by (cbn [state install]; rewrite Hf; exact Hm).
    rewrite andThen_pair. cbn [snd].
    rewrite (andThen_pair (install c _, _) flush). cbn [fst snd].
    rewrite (flush_unmounted _ Hi), Hl. cbn [app fst snd].
    destruct (result (thenHandler k data (state c))); [ | reflexivity].
    apply catch_after_teardown. exact Hi.
Qed.

Lemma fireTimers_after_teardown (n : nat) (c : config) :
  isMounted (state c) = false ->
  afterlife (snd (fireTimers n c)) = true.
Proof.
  revert c. induction n as [ | n IH]; intros c Hm; [reflexivity | ].
  cbn [fireTimers]. unfold andThen at 1. cbn [snd].
  apply afterlife_app.
  - unfold andThen, runHandler. cbn [fst snd].
    rewrite flush_unmounted by exact Hm. reflexivity.
  - apply IH. rewrite (fireTimer_unmounted c Hm). exact Hm.
Qed.

Lemma step_after_teardown (e : event) (c : config) :
  isMounted (state c) = false ->
  afterlife (snd (step e c)) = true.
Proof.
  intros Hm. destruct e; cbn [step]; rewrite ?Hm; try reflexivity.
  - destruct (nth_error (inflight c) i); [ | reflexivity].
    apply settleRequest_after_teardown. exact Hm.
  - apply fireTimers_after_teardown. exact Hm.
Qed.

Lemma run_after_teardown (es : list event) (c : config) :
  isMounted (state c) = false ->
  afterlife (snd (run es c)) = true.
Proof.
  revert c. induction es as [ | e es IH]; intros c Hm; [reflexivity | ].
  cbn [run]. unfold andThen. cbn [snd].
  apply afterlife_app.
  - apply step_after_teardown. exact Hm.
  - apply IH. apply (proj2 (tearsDownOnce_step e c)). exact Hm.
Qed.

(** X14: once the component is unmounted no sequence of events (clicks,
    blurs, typing, new props or viewports, responses, failures, timers) makes
    it do anything but write to the console and let a pending timer clear the
    error flag: it issues no request, emits no [setMapViewport] and never
    calls [onChange]. *)
Theorem nothing_but_console_and_timer_after_teardown
    (es : list event) (c : config) :
  isMounted (state c) = false ->
  afterlife (snd (run es c)) = true
  /\ fetches (snd (run es c)) = []
  /\ emits (snd (run es c)) = []
  /\ onChanges (snd (run es c)) = [].
Proof.
  intros Hm. pose proof (run_after_teardown es c Hm) as H.
  destruct (afterlife_silent _ H) as (H1 & H2 & H3 & _). auto.
Qed.

(** *** The banner timer *)

Lemma timeoutsOf_app (now : N) (l1 l2 : list action) :
  timeoutsOf now (l1 ++ l2) = timeoutsOf now l1 ++ timeoutsOf now l2.
Proof. unfold timeoutsOf. apply flat_map_app. Qed.

Lemma timeoutsOf_5000 (now : N) (l : list action) :
  delays5000 l ->
  Forall (fun t => t = (now + 5000)%N) (timeoutsOf now l).
Proof.
  induction 1 as [ | a l Ha _ IH]; [constructor | ].
  destruct a; cbn [timeoutsOf flat_map app]; try exact IH.
  constructor; [rewrite Ha; reflexivity | exact IH].
Qed.

Lemma install_timersDueSoon (c : config)
    (r : (jserror + unit) * cells * list action) :
  delays5000 (log r) -> timersDueSoon c -> timersDueSoon (install c r).
Proof.
  unfold timersDueSoon. cbn [install timers clock]. intros Hd Hc.
  apply Forall_app. split; [exact Hc | ].
  eapply Forall_impl; [ | apply timeoutsOf_5000; exact Hd].
  cbv beta. intros t ->. lia.
Qed.

Lemma install_bannerHasTimer (c : config)
    (r : (jserror + unit) * cells * list action) :
  (isMounted (final r) = true -> isMounted (state c) = true) ->
  bannerHasTimer c -> bannerHasTimer (install c r).
Proof.
  unfold bannerHasTimer. cbn [install timers state rendered].
  intros Hm Hc Hf He Habs. apply app_eq_nil in Habs.
  exact (Hc (Hm Hf) He (proj1 Habs)).
Qed.

Lemma install_timed (c : config) (m : M unit) :
  wellBehaved m -> timed c -> timed (install c (m (state c))).
Proof.
  intros Hw [Hd Hb]. destruct (Hw (state c)) as [H1 H2]. split.
  - apply install_timersDueSoon; assumption.
  - apply install_bannerHasTimer; assumption.
Qed.

Lemma runHandler_timed (c : config) (m : M unit) :
  wellBehaved m -> timed c -> timed (fst (runHandler m c)).
Proof. exact (install_timed c m). Qed.

Lemma wellBehaved_doGeocode (p : Props) : wellBehaved (doGeocode p).
Proof.
  intros s. rewrite doGeocode_run. unfold log, final. cbn [fst snd]. split.
  - destruct (forwardUrl p); repeat constructor.
  - cbn [isMounted]. auto.
Qed.

Lemma wellBehaved_thenHandler (k : continuation) (data : json) :
  wellBehaved (thenHandler k data).
Proof.
  intros s. split.
  - destruct k; cbn [thenHandler];
      rewrite ?forwardThen_run, ?reverseThen_run.
    + destruct (locationGeometry data) as [e | g]; [constructor | ].
      destruct (truthy g), (isMounted s); cbn [andb];
        try destruct (viewportPayload g); repeat constructor.
    + destruct (placeName data) as [e | g]; [constructor | ].
      destruct (truthy g), (isMounted s); cbn [andb]; repeat constructor.
  - rewrite (proj1 (preservesMount_thenHandler k data s)). auto.
Qed.

Lemma wellBehaved_catchHandler (k : continuation) (err : jserror) :
  wellBehaved (catchHandler k err).
Proof.
  intros s. split.
  - destruct k; cbn [catchHandler];
      rewrite ?forwardCatch_run, ?reverseCatch_run;
      destruct (isMounted s); repeat constructor.
  - rewrite (proj1 (preservesMount_catchHandler k err s)). auto.
Qed.

Lemma wellBehaved_errorTimerCallback : wellBehaved errorTimerCallback.
Proof. intros s. split; [repeat constructor | auto]. Qed.

Lemma wellBehaved_unmountCleanup : wellBehaved unmountCleanup.
Proof. intros s. split; [repeat constructor | discriminate]. Qed.

Lemma wellBehaved_onChange (p : Props) (s0 : cells) (n v : jsstring) :
  wellBehaved (onChange (textInput (render p s0)) n v).
Proof. intros s. split; [repeat constructor | auto]. Qed.

Lemma wellBehaved_effectsOf (rd td ad : bool) (p : Props) (e : bool) :
  wellBehaved (effectsOf rd td ad p e).
Proof.
  intros s. split.
  - rewrite effectsOf_run. cbv zeta. unfold log. cbn [fst snd].
    destruct (rd && negb (isMapDraggingOrZooming (connected p))),
      (td && isTriggeringGeocode (own p)), (ad && e), (forwardUrl p);
      repeat constructor.
  - rewrite (proj1 (preservesMount_effectsOf rd td ad p e s)). auto.
Qed.

(** An effect pass keeps the timers in order: a render that shows the banner
    for the first time arms the timer. *)
Lemma runEffects_timersDueSoon (m : M unit) (c : config) :
  wellBehaved m -> timersDueSoon c -> timersDueSoon (fst (runEffects m c)).
Proof.
  intros Hw Hc. unfold runEffects. destruct (Hw (state c)) as [Hd _].
  destruct (result (m (state c))).
  - cbn [andThen runHandler fst snd].
    apply install_timersDueSoon;
      [apply wellBehaved_unmountCleanup | ].
    apply install_timersDueSoon; assumption.
  - cbn [fst]. apply install_timersDueSoon; assumption.
Qed.

Lemma commit_timersDueSoon (c : config) :
  timersDueSoon c -> timersDueSoon (fst (commit c)).
Proof.
  intros Hc. unfold commit. destruct (isMounted (state c)); [ | exact Hc].
  apply runEffects_timersDueSoon; [apply wellBehaved_effectsOf | exact Hc].
Qed.

Lemma effectsOf_arms (rd td : bool) (p : Props) (s : cells) :
  result (effectsOf rd td true p true s) = inr tt ->
  timeoutsOf 0 (log (effectsOf rd td true p true s)) <> [].
Proof.
  rewrite effectsOf_run. cbv zeta. unfold result, log. cbn [fst snd andb].
  rewrite !timeoutsOf_app.
  destruct (forwardUrl p);
    destruct (td && isTriggeringGeocode (own p)); try discriminate;
    intros _ H; apply app_eq_nil in H; destruct H as [_ H];
    apply app_eq_nil in H; destruct H as [_ H]; discriminate H.
Qed.

Lemma timeoutsOf_nil (now now' : N) (l : list action) :
  timeoutsOf now l = [] -> timeoutsOf now' l = [].
Proof.
  induction l as [ | a l IH]; [reflexivity | ].
  destruct a; cbn [timeoutsOf flat_map app]; try exact IH. discriminate.
Qed.

Lemma commit_bannerHasTimer (c : config) :
  bannerHasTimer c -> bannerHasTimer (fst (commit c)).
Proof.
  intros Hc. unfold commit. destruct (isMounted (state c)) eqn:Hm;
    [ | exact Hc].
  unfold runEffects.
  change (state (withRendered c (depsOf (props c) (state c))))
    with (state c).
  set (r := effectsOf _ _ _ _ _ (state c)).
  destruct (result r) eqn:Hr.
  - cbn [andThen runHandler fst snd]. intros Habs. discriminate Habs.
  - cbn [fst]. unfold bannerHasTimer.
    cbn [install withRendered timers state rendered clock depsOf depError].
    intros Hf He Habs. apply app_eq_nil in Habs. destruct Habs as [Ht Ha].
    destruct (depError (rendered c)) eqn:Hb.
    + exact (Hc Hm Hb Ht).
    + revert Hr Ha. unfold r, errorDepsChanged.
      cbn [depsOf depError]. rewrite Hb, He. cbn [xorb].
      destruct u. intros Hr Ha.
      apply (effectsOf_arms _ _ _ _ Hr).
      exact (timeoutsOf_nil _ 0 _ Ha).
Qed.

Lemma commit_timed (c : config) : timed c -> timed (fst (commit c)).
Proof.
  intros [Hd Hb]. split;
    [apply commit_timersDueSoon | apply commit_bannerHasTimer]; assumption.
Qed.

Lemma flush_timed (c : config) : timed c -> timed (fst (flush c)).
Proof.
  intros H. unfold flush. cbn [andThen fst]. apply commit_timed, commit_timed.
  exact H.
Qed.

Lemma handled_timed (c : config) (m : M unit) :
  wellBehaved m -> timed c ->
  timed (fst (andThen (runHandler m c) flush)).
Proof.
  intros Hw Hc. cbn [andThen fst]. apply flush_timed, runHandler_timed;
    assumption.
Qed.

Lemma withProps_timed (c : config) (p : Props) :
  timed c -> timed (withProps c p).
Proof. intros H. exact H. Qed.

Lemma dropRequest_timed (i : nat) (c : config) :
  timed c -> timed (dropRequest i c).
Proof. intros H. exact H. Qed.

Lemma settleRequest_timed (k : continuation) (o : outcome) (c : config) :
  timed c -> timed (fst (settleRequest k o c)).
Proof.
  intros H. destruct o as [err | data]; cbn [settleRequest].
  - apply handled_timed; [apply wellBehaved_catchHandler | exact H].
  - rewrite andThen_pair. cbn [fst].
    rewrite (andThen_pair (install c _, _) flush). cbn [fst snd].
    assert (H1 : timed (fst (flush (install c (thenHandler k data (state c))))))
      by (apply flush_timed, install_timed;
          [apply wellBehaved_thenHandler | exact H]).
    destruct (result (thenHandler k data (state c))); [ | exact H1].
    apply handled_timed; [apply wellBehaved_catchHandler | exact H1].
Qed.

Lemma fireTimers_timed (n : nat) (c : config) :
  timed c -> timed (fst (fireTimers n c)).
Proof.
  revert c. induction n as [ | n IH]; intros c H; [exact H | ].
  rewrite fireTimers_S. apply IH.
  apply handled_timed; [apply wellBehaved_errorTimerCallback | exact H].
Qed.

(** A firing timer leaves the banner hidden, so nothing is owed after it. *)
Lemma fireTimer_timed (c : config) :
  settled c -> timersDueSoon c ->
  timed (fst (andThen (runHandler errorTimerCallback c) flush)).
Proof.
  intros Hs Hd. split.
  - cbn [andThen fst]. unfold flush. cbn [andThen fst].
    apply commit_timersDueSoon, commit_timersDueSoon.
    apply install_timersDueSoon; [ | exact Hd].
    apply wellBehaved_errorTimerCallback.
  - destruct (isMounted (state c)) eqn:Hm.
    + rewrite (fireTimer_mounted c Hm (Hs Hm)).
      intros _ Habs. discriminate Habs.
    + rewrite (fireTimer_unmounted c Hm).
      intros Habs. cbn in Habs. congruence.
Qed.

Lemma filter_none_due (now : N) (ts : list N) :
  List.length (filter (fun t => (t <=? now)%N) ts) = O ->
  filter (fun t => negb (t <=? now)%N) ts = ts.
Proof.
  induction ts as [ | t ts IH]; [reflexivity | ].
  cbn [filter]. destruct (t <=? now)%N; cbn [negb List.length];
    [discriminate | ].
  intros H. rewrite (IH H). reflexivity.
Qed.

Lemma advance_timed (dt : N) (c : config) :
  settled c -> timed c -> timed (fst (advance dt c)).
Proof.
  intros Hs [Hd Hb]. unfold advance.
  set (c0 := {| props := props c; state := state c; rendered := rendered c;
                inflight := inflight c;
                timers := filter (fun t => negb (t <=? clock c + dt)%N)
                                 (timers c);
                clock := (clock c + dt)%N |}).
  assert (Hd0 : timersDueSoon c0).
  { unfold timersDueSoon, c0. cbn [timers clock].
    unfold timersDueSoon in Hd. rewrite Forall_forall in Hd.
    apply Forall_forall. intros t Ht. apply filter_In in Ht.
    destruct Ht as [Hin Hlate]. specialize (Hd t Hin).
    apply negb_true_iff, N.leb_gt in Hlate. lia. }
  destruct (List.length (filter (fun t => (t <=? clock c + dt)%N) (timers c)))
    as [ | n] eqn:Hn.
  - cbn [fireTimers fst]. split; [exact Hd0 | ].
    unfold bannerHasTimer, c0. cbn [timers state rendered].
    rewrite (filter_none_due _ _ Hn). exact Hb.
  - rewrite fireTimers_S. apply fireTimers_timed.
    apply fireTimer_timed; [exact Hs | exact Hd0].
Qed.

Lemma step_timed (e : event) (c : config) :
  settled c -> timed c -> timed (fst (step e c)).
Proof.
  intros Hs H. destruct e; cbn [step].
  - destruct (isMounted (state c)); [ | exact H].
    unfold render; cbn [button].
    destruct (negb (isGeocoding (state c))); [ | exact H].
    apply handled_timed; [apply wellBehaved_doGeocode | exact H].
  - destruct (isMounted (state c)); [ | exact H].
    apply handled_timed; [apply wellBehaved_doGeocode | exact H].
  - destruct (isMounted (state c)); [ | exact H].
    apply handled_timed; [apply wellBehaved_onChange | exact H].
  - destruct (isMounted (state c)); [ | exact H].
    apply flush_timed, withProps_timed, H.
  - destruct (isMounted (state c)); [ | exact H].
    apply flush_timed, withProps_timed, H.
  - destruct (nth_error (inflight c) i); [ | exact H].
    apply settleRequest_timed, dropRequest_timed, H.
  - apply advance_timed; assumption.
  - destruct (isMounted (state c)); [ | exact H].
    apply runHandler_timed; [apply wellBehaved_unmountCleanup | exact H].
Qed.

Lemma mount_timed (p : Props) : timed (fst (mount p)).
Proof.
  unfold mount. cbn [andThen fst]. apply commit_timed.
  set (c0 := {| props := p; state := initialCells;
                rendered := depsOf p initialCells;
                inflight := []; timers := []; clock := 0%N |}).
  split.
  - apply runEffects_timersDueSoon; [apply wellBehaved_effectsOf | ].
    constructor.
  - unfold runEffects.
    destruct (result (effectsOf true true true p
                        (isWithGeocodingError initialCells) (state c0))).
    + cbn [andThen runHandler fst snd]. intros Habs. discriminate Habs.
    + cbn [fst]. intros _ Habs. discriminate Habs.
Qed.

Lemma reachable_timed (c : config) : reachable c -> timed c.
Proof.
  induction 1 as [p | e c Hr IH].
  - apply mount_timed.
  - apply step_timed; [apply reachable_settled; exact Hr | exact IH].
Qed.

(** X13: in every state the component reaches from its mount, each
    pending timer is due later than now and at most 5000ms from now; and
    whenever the banner of a mounted component is shown a timer is pending,
    so that the banner is hidden once 5000ms have passed. *)
Theorem banner_is_cleared_within_5000ms (c : config) :
  reachable c ->
  timersDueSoon c
  /\ (isMounted (state c) = true ->
      isWithGeocodingError (state c) = true ->
      timers c <> []
      /\ isWithGeocodingError (state (fst (step (Advance 5000) c))) = false).
Proof.
  intros Hr. destruct (reachable_timed c Hr) as [Hd Hb].
  split; [exact Hd | ]. intros Hm He.
  pose proof (reachable_settled c Hr Hm) as Hs.
  assert (Ht : timers c <> []).
  { apply Hb; [exact Hm | ]. rewrite Hs. exact He. }
  split; [exact Ht | ].
  destruct (timers c) as [ | t ts] eqn:Ets; [contradiction | ].
  assert (Hin : In t (timers c)) by (rewrite Ets; left; reflexivity).
  unfold timersDueSoon in Hd. rewrite Forall_forall in Hd.
  destruct (filter_due_nonempty (clock c + 5000) t (timers c) Hin
              (proj2 (Hd t Hin))) as [n Hn].
  cbn [step]. unfold advance. rewrite Hn.
  rewrite fireTimers_mounted; [reflexivity | exact Hm | exact Hs].
Qed.

(** *** Renders come to rest *)

Lemma commit_at_rest (c : config) : settled c -> commit c = (c, []).
Proof.
  intros Hs. destruct (isMounted (state c)) eqn:Hm;
    [ | apply commit_unmounted; exact Hm].
  specialize (Hs Hm).
  rewrite commit_quiet;
    [ | exact Hm
      | rewrite Hs, reverseDepsChanged_same; reflexivity
      | rewrite Hs, triggerDepsChanged_refl; reflexivity ].
  cbv zeta. rewrite Hs at 1 2. cbn [depsOf depError].
  rewrite xorb_nilpotent. cbn [andb]. rewrite app_nil_r, <- Hs.
  destruct c; reflexivity.
Qed.

Lemma flush_at_rest (c : config) : settled c -> flush c = (c, []).
Proof.
  intros Hs. unfold flush. rewrite andThen_pair, (commit_at_rest c Hs).
  cbn [fst snd]. rewrite (commit_at_rest c Hs). reflexivity.
Qed.

(** X17: the effects cause no render loop: after the two renders that
    follow an event a further render runs no effect and changes nothing, and
    every state the component reaches from its mount is at rest in that
    sense. *)
Theorem renders_come_to_rest (c : config) :
  commit (fst (flush c)) = (fst (flush c), [])
  /\ (reachable c -> commit c = (c, [])).
Proof.
  split.
  - apply commit_at_rest, flush_settled.
  - intros Hr. apply commit_at_rest, reachable_settled, Hr.
Qed.

(** *** Calls to the outside *)

Lemma calls_app (l1 l2 : list action) :
  calls (l1 ++ l2) = calls l1 ++ calls l2.
Proof. unfold calls. apply filter_app. Qed.

Lemma calls_effectsOf (rd td ad : bool) (p : Props) (e : bool) (s : cells) :
  calls (log (effectsOf rd td ad p e s)) = [].
Proof.
  rewrite effectsOf_run. cbv zeta. unfold log. cbn [fst snd].
  destruct (rd && negb (isMapDraggingOrZooming (connected p))),
    (td && isTriggeringGeocode (own p)), (ad && e), (forwardUrl p);
    reflexivity.
Qed.

Lemma calls_doGeocode (p : Props) (s : cells) :
  calls (log (doGeocode p s)) = [].
Proof.
  rewrite doGeocode_run. unfold log. cbn [fst snd].
  destruct (forwardUrl p); reflexivity.
Qed.

Lemma calls_catchHandler (k : continuation) (err : jserror) (s : cells) :
  calls (log (catchHandler k err s)) = [].
Proof.
  destruct k; cbn [catchHandler];
    rewrite ?forwardCatch_run, ?reverseCatch_run;
    destruct (isMounted s); reflexivity.
Qed.

Lemma calls_thenHandler (k : continuation) (data : json) (s : cells) :
  calls (log (thenHandler k data s)) <> [] ->
  isMounted s = true /\ classify k (Resolved data) = Found.
Proof.
  destruct k; cbn [thenHandler classify];
    rewrite ?forwardThen_run, ?reverseThen_run.
  - destruct (locationGeometry data) as [e | g]; [intros H; now elim H | ].
    destruct (truthy g), (isMounted s); cbn [andb];
      try destruct (viewportPayload g); intros H;
      try (now elim H); auto.
  - destruct (placeName data) as [e | g]; [intros H; now elim H | ].
    destruct (truthy g), (isMounted s); cbn [andb]; intros H;
      try (now elim H); auto.
Qed.

Lemma calls_runHandler (m : M unit) (c : config) :
  calls (snd (runHandler m c)) = calls (log (m (state c))).
Proof.
  unfold runHandler. cbn [snd]. rewrite calls_app.
  destruct (result (m (state c))); cbn [calls filter]; apply app_nil_r.
Qed.

Lemma calls_runEffects (m : M unit) (c : config) :
  calls (snd (runEffects m c)) = calls (log (m (state c))).
Proof.
  unfold runEffects. destruct (result (m (state c))); [ | reflexivity].
  rewrite andThen_pair. cbn [fst snd]. rewrite !calls_app, calls_runHandler.
  cbn. rewrite !app_nil_r. reflexivity.
Qed.

Lemma calls_commit (c : config) : calls (snd (commit c)) = [].
Proof.
  unfold commit. destruct (isMounted (state c)); [ | reflexivity].
  rewrite calls_runEffects. apply calls_effectsOf.
Qed.

Lemma calls_flush (c : config) : calls (snd (flush c)) = [].
Proof.
  unfold flush. rewrite andThen_pair. cbn [snd].
  rewrite calls_app, !calls_commit. reflexivity.
Qed.

Lemma calls_handled (m : M unit) (c : config) :
  calls (snd (andThen (runHandler m c) flush)) = calls (log (m (state c))).
Proof.
  rewrite andThen_pair. cbn [snd].
  rewrite calls_app, calls_runHandler, calls_flush. apply app_nil_r.
Qed.

Lemma calls_fireTimers (n : nat) (c : config) :
  calls (snd (fireTimers n c)) = [].
Proof.
  revert c. induction n as [ | n IH]; intros c; [reflexivity | ].
  cbn [fireTimers]. rewrite andThen_pair. cbn [snd].
  rewrite calls_app, IH, calls_handled. reflexivity.
Qed.

Lemma calls_settleRequest (k : continuation) (o : outcome) (c : config) :
  calls (snd (settleRequest k o c))
  = match o with
    | Rejected _ => []
    | Resolved data => calls (log (thenHandler k data (state c)))
    end.
Proof.
  destruct o as [err | data]; cbn [settleRequest].
  - rewrite calls_handled. apply calls_catchHandler.
  - rewrite andThen_pair. cbn [snd].
    rewrite (andThen_pair (install c _, _) flush). cbn [fst snd].
    rewrite !calls_app, calls_flush.
    destruct (result (thenHandler k data (state c))).
    + rewrite calls_handled, calls_catchHandler, !app_nil_r. reflexivity.
    + rewrite !app_nil_r. reflexivity.
Qed.

(** X18: the map is moved and the form is written to for one reason each:
    an event ends in a [setMapViewport] emit or an [onChange] call only when
    the component is mounted and either the user typed into the input or a
    response arrived for a pending request and a result was found in it. *)
Theorem calls_have_one_cause (e : event) (c : config) :
  calls (snd (step e c)) <> [] ->
  isMounted (state c) = true
  /\ ((exists text, e = InputChange text)
      \/ exists i k data,
           e = Settle i (Resolved data)
           /\ nth_error (inflight c) i = Some k
           /\ classify k (Resolved data) = Found).
Proof.
  destruct e; cbn [step].
  - destruct (isMounted (state c)); [ | intros H; now elim H].
    unfold render; cbn [button].
    destruct (negb (isGeocoding (state c))); [ | intros H; now elim H].
    rewrite calls_handled, calls_doGeocode. intros H; now elim H.
  - destruct (isMounted (state c)); [ | intros H; now elim H].
    rewrite calls_handled. unfold render; cbn [textInput onBlur].
    rewrite calls_doGeocode. intros H; now elim H.
  - destruct (isMounted (state c)); [ | intros H; now elim H].
    intros _. split; [reflexivity | ]. left. exists text. reflexivity.
  - destruct (isMounted (state c)); [ | intros H; now elim H].
    rewrite calls_flush. intros H; now elim H.
  - destruct (isMounted (state c)); [ | intros H; now elim H].
    rewrite calls_flush. intros H; now elim H.
  - destruct (nth_error (inflight c) i) as [k | ] eqn:Hk;
      [ | intros H; now elim H].
    rewrite calls_settleRequest.
    destruct o as [err | data]; [intros H; now elim H | ].
    change (state (dropRequest i c)) with (state c).
    intros H. destruct (calls_thenHandler k data (state c) H) as [Hm Hf].
    split; [exact Hm | ]. right. exists i, k, data. auto.
  - unfold advance. rewrite calls_fireTimers. intros H; now elim H.
  - destruct (isMounted (state c)); intros H; now elim H.
Qed.

End Properties.

(** * The claims on concrete runs *)

#[local] Existing Instance Demo.platform.

Example encode_main_st :
  URI.encodeURIComponent (lit "123 Main St") = Some (lit "123%20Main%20St").
Proof. reflexivity. Qed.

Example encode_two_octets :
  URI.encodeURIComponent [233%N] = Some (lit "%C3%A9").
Proof. reflexivity. Qed.

Example encode_surrogate_pair :
  URI.encodeURIComponent [55357%N; 56832%N] = Some (lit "%F0%9F%98%80").
Proof. reflexivity. Qed.

Example encode_lone_surrogate :
  URI.encodeURIComponent [97%N; 55357%N] = None.
Proof. reflexivity. Qed.

Example mount_at_rest_reverse_geocodes :
  snd (mount (Demo.props false))
  = [SetIsGeocoding true;
     Fetch GET
       (lit "https://api.mapbox.com/geocoding/v5/mapbox.places/-122,47.json?access_token=pk.test")
       (ReverseGeocode (lit "address"))].
Proof. reflexivity. Qed.

Example failedTwice_timers :
  timers Demo.failedTwice = [5000%N; 6000%N] /\ clock Demo.failedTwice = 1000%N.
Proof. split; reflexivity. Qed.

Lemma unmounted_continuations_leave_the_flags_witness :
  isMounted Demo.unmountedLoading = false
  /\ final (settle ForwardGeocode (Resolved Demo.found) Demo.unmountedLoading)
     = Demo.unmountedLoading
  /\ state (fst (step (Settle 0 (Resolved Demo.found)) Demo.unmountedSearching))
     = Demo.unmountedLoading.
Proof.
  split; [reflexivity | ].
  pose proof (unmounted_continuations_leave_the_flags
                ForwardGeocode (Resolved Demo.found) Demo.unmountedLoading
                eq_refl) as H.
  split.
  - exact (proj1 (proj1 H)).
  - exact (proj1 (proj2 H) 0%nat Demo.unmountedSearching eq_refl).
Defined.

Lemma reverse_geocode_waits_for_the_map_to_rest_witness :
  reachable (Demo.mounted true)
  /\ isMounted (state (Demo.mounted true)) = true
  /\ fetches
       (snd (run [ViewportUpdate (Demo.viewport 2 48 (-121)) true;
                  ViewportUpdate (Demo.viewport 3 49 (-120)) true]
                 (Demo.mounted true))) = []
  /\ fetches
       (snd (step (ViewportUpdate (Demo.viewport 4 50 (-119)) false)
               (fst (run [ViewportUpdate (Demo.viewport 2 48 (-121)) true;
                          ViewportUpdate (Demo.viewport 3 49 (-120)) true]
                         (Demo.mounted true)))))
     = [Fetch GET
          (lit "https://api.mapbox.com/geocoding/v5/mapbox.places/-119,50.json?access_token=pk.test")
          (ReverseGeocode (lit "address"))].
Proof.
  split; [exact (reachable_mount (Demo.props true)) | ].
  split; [reflexivity | ].
  exact (reverse_geocode_waits_for_the_map_to_rest
           (Demo.mounted true)
           [Demo.viewport 2 48 (-121); Demo.viewport 3 49 (-120)]
           (Demo.viewport 4 50 (-119))
           (reachable_mount (Demo.props true)) eq_refl (or_introl eq_refl)).
Defined.

Lemma forward_geocode_emits_one_viewport_event_witness :
  isMounted Demo.loading = true
  /\ featureCoordinates Demo.found = Some [JNum (-122)%Z; JNum 47%Z]
  /\ emits (log (doGeocode (Demo.props true) initialCells)
            ++ log (settle ForwardGeocode (Resolved Demo.found) Demo.loading))
     = [Emit (lit "setMapViewport")
          {| payloadLatitude := Some (JNum 47%Z);
             payloadLongitude := Some (JNum (-122)%Z);
             zoom := 14;
             transitionDuration := 1000 |}].
Proof.
  split; [reflexivity | ]. split; [reflexivity | ].
  exact (forward_geocode_emits_one_viewport_event
           (Demo.props true) initialCells Demo.loading Demo.found
           [JNum (-122)%Z; JNum 47%Z] eq_refl eq_refl).
Defined.

Lemma error_banner_shows_and_times_out_witness :
  reachable Demo.searching
  /\ timers Demo.searching = []
  /\ nth_error (inflight Demo.searching) 0 = Some ForwardGeocode
  /\ classify ForwardGeocode (Resolved Demo.notFound) = NotFound
  /\ isWithGeocodingError (state Demo.failedOnce) = true
  /\ timers Demo.failedOnce = [5000%N]
  /\ isWithGeocodingError
       (state (fst (step (Advance 4999) Demo.failedOnce))) = true
  /\ isWithGeocodingError
       (state (fst (step (Advance 5000) Demo.failedOnce))) = false
  /\ classify ForwardGeocode (Resolved Demo.found) = Found
  /\ isWithGeocodingError
       (state (fst (step (Settle 0 (Resolved Demo.found)) Demo.searching)))
     = false.
Proof.
  assert (Hr : reachable Demo.searching)
    by exact (reachable_step Blur (reachable_mount (Demo.props true))).
  assert (Hc : classify ForwardGeocode (Resolved Demo.notFound) <> Found)
    by (vm_compute; discriminate).
  pose proof (error_banner_shows_and_times_out
                Demo.searching 0 ForwardGeocode (Resolved Demo.notFound)
                Hr eq_refl eq_refl eq_refl Hc)
    as (H1 & H2 & H3 & H4 & H5).
  split; [exact Hr | ]. split; [reflexivity | ]. split; [reflexivity | ].
  split; [reflexivity | ]. split; [exact H1 | ].
  split; [vm_compute in H2; vm_compute; exact H2 | ].
  split; [exact (H4 eq_refl 4999%N eq_refl) | ].
  split; [exact H3 | ].
  split; [reflexivity | ].
  exact (H5 Demo.searching 0%nat ForwardGeocode (Resolved Demo.found)
            Hr eq_refl eq_refl eq_refl).
Defined.

Lemma error_timer_ignores_the_mount_guard_witness :
  isMounted (state Demo.unmountedWithBanner) = false
  /\ isWithGeocodingError (state Demo.unmountedWithBanner) = true
  /\ In 5000%N (timers Demo.unmountedWithBanner)
  /\ state (fst (step (Advance 5000) Demo.unmountedWithBanner))
     = {| isGeocoding := false;
          isWithGeocodingError := false;
          isMounted := false |}.
Proof.
  split; [reflexivity | ]. split; [reflexivity | ].
  split; [vm_compute; left; reflexivity | ].
  apply (proj2 (proj2 error_timer_ignores_the_mount_guard)
           Demo.unmountedWithBanner 5000%N 5000%N eq_refl).
  - vm_compute. left. reflexivity.
  - vm_compute. discriminate.
Defined.

Lemma failing_lookup_collapses_to_error_banner_witness :
  isMounted Demo.loading = true
  /\ classify ForwardGeocode (Resolved Demo.notFound) = NotFound
  /\ classify ForwardGeocode (Rejected FetchFailed) = Failed
  /\ final (settle ForwardGeocode (Resolved Demo.notFound) Demo.loading)
     = errorShown
  /\ final (settle ForwardGeocode (Rejected FetchFailed) Demo.loading)
     = errorShown.
Proof.
  split; [reflexivity | ]. split; [reflexivity | ]. split; [reflexivity | ].
  split.
  - apply (failing_lookup_collapses_to_error_banner
             (Demo.props true) ForwardGeocode (Resolved Demo.notFound)
             Demo.loading eq_refl).
    vm_compute. discriminate.
  - apply (failing_lookup_collapses_to_error_banner
             (Demo.props true) ForwardGeocode (Rejected FetchFailed)
             Demo.loading eq_refl).
    vm_compute. discriminate.
Defined.

Lemma click_and_blur_run_the_same_geocode_witness :
  isGeocoding (state (Demo.mounted true)) = false
  /\ step Click (Demo.mounted true) = step Blur (Demo.mounted true)
  /\ fetches (snd (step Click (Demo.mounted true)))
     = [Fetch GET
          (lit "https://api.mapbox.com/geocoding/v5/mapbox.places/123%20Main%20St.json?access_token=pk.test")
          ForwardGeocode].
Proof.
  split; [reflexivity | ]. split; [ | reflexivity].
  exact (proj2 (click_and_blur_run_the_same_geocode
                  (Demo.mounted true) eq_refl)).
Defined.

Lemma geocode_requests_have_the_documented_shape_witness :
  URI.encodeURIComponent (value (own Demo.configuredProps))
  = Some (lit "123%20Main%20St")
  /\ fetches (log (doGeocode Demo.configuredProps initialCells))
     = [Fetch GET
          (lit "https://api.mapbox.com/geocoding/v5/mapbox.places/123%20Main%20St.json?access_token=pk.test&proximity=-122,47&bbox=-123,46,-121,48")
          ForwardGeocode]
  /\ isMapDraggingOrZooming (connected (Demo.props false)) = false
  /\ fetches (log (reverseGeocodeEffect (Demo.props false) initialCells))
     = [Fetch GET
          (lit "https://api.mapbox.com/geocoding/v5/mapbox.places/-122,47.json?access_token=pk.test")
          (ReverseGeocode (lit "address"))].
Proof.
  split; [reflexivity | ]. split; [ | split; [reflexivity | ]].
  - exact (proj1 geocode_requests_have_the_documented_shape
             Demo.configuredProps initialCells (lit "123%20Main%20St")
             (Some ((-122)%Z, 47%Z)) (Some ((-123)%Z, 46%Z, (-121)%Z, 48%Z))
             eq_refl eq_refl eq_refl).
  - exact (proj1 (proj2 (proj2 geocode_requests_have_the_documented_shape))
             (Demo.props false) initialCells eq_refl).
Defined.

(** C4, as stated, fails twice.  A not-found result that arrives after the
    teardown leaves the banner hidden.  And on a mounted component a banner
    shown at time 1000, while the timer of an earlier failure is pending, is
    hidden at time 5000, after 4000ms and without any successful lookup. *)
Lemma error_banner_counterexample :
  (isWithGeocodingError (state Demo.unmountedSearching) = false
   /\ classify ForwardGeocode (Resolved Demo.notFound) = NotFound
   /\ isWithGeocodingError
        (state (fst (step (Settle 0 (Resolved Demo.notFound))
                       Demo.unmountedSearching))) = false)
  /\ (isMounted (state Demo.failedTwice) = true
      /\ isWithGeocodingError (state Demo.restarted) = false
      /\ isWithGeocodingError (state Demo.failedTwice) = true
      /\ clock Demo.failedTwice = 1000%N
      /\ snd (step (Advance 4000) Demo.failedTwice)
         = [SetIsWithGeocodingError false]
      /\ isWithGeocodingError
           (state (fst (step (Advance 4000) Demo.failedTwice))) = false).
Proof. vm_compute. repeat split. Qed.

(** C6, as stated, fails: a request that is rejected after the teardown
    leaves the loading flag true and the error flag false. *)
Lemma failing_lookup_counterexample :
  state Demo.unmountedSearching = Demo.unmountedLoading
  /\ classify ForwardGeocode (Rejected FetchFailed) = Failed
  /\ final (settle ForwardGeocode (Rejected FetchFailed) Demo.unmountedLoading)
     = Demo.unmountedLoading
  /\ isGeocoding Demo.unmountedLoading = true
  /\ isWithGeocodingError Demo.unmountedLoading = false
  /\ ~ (forall (k : continuation) (o : outcome) (s : cells),
           classify k o <> Found ->
           isGeocoding (final (settle k o s)) = false
           /\ isWithGeocodingError (final (settle k o s)) = true).
Proof.
  split; [vm_compute; reflexivity | ].
  repeat split. intros H.
  destruct (H ForwardGeocode (Rejected FetchFailed) Demo.unmountedLoading)
    as [H1 _]; [discriminate | discriminate H1].
Qed.

(** * The further properties on concrete runs *)

Lemma encoded_query_is_url_safe_witness :
  codeUnits (lit "123 Main St")
  /\ URI.encodeURIComponent (lit "123 Main St")
     = Some (lit "123%20Main%20St")
  /\ forallb urlSafe (lit "123%20Main%20St") = true
  /\ (forall u, In u (lit "&=?#/+ ") -> ~ In u (lit "123%20Main%20St")).
Proof.
  assert (H1 : codeUnits (lit "123 Main St"))
    by (apply codeUnits_forallb; vm_compute; reflexivity).
  split; [exact H1 | ]. split; [reflexivity | ].
  exact (encoded_query_is_url_safe
           (lit "123 Main St") (lit "123%20Main%20St") H1 eq_refl).
Defined.

Lemma encodeURIComponent_total_without_surrogates_witness :
  URI.encodeURIComponent (lit "123 Main St") <> None
  /\ URI.encodeURIComponent (lit "Seattle") = Some (lit "Seattle").
Proof.
  split.
  - exact (proj1 (encodeURIComponent_total_without_surrogates
                    (lit "123 Main St")) eq_refl).
  - exact (proj2 (encodeURIComponent_total_without_surrogates
                    (lit "Seattle")) eq_refl).
Defined.




Lemma reverse_result_is_applied_even_while_dragging_witness :
  reachable Sample.dragged
  /\ isMapDraggingOrZooming (connected (props Sample.dragged)) = true
  /\ isMounted (state Sample.dragged) = true
  /\ nth_error (inflight Sample.dragged) 0
     = Some (ReverseGeocode (lit "address"))
  /\ placeName Demo.found = inr (Some (JStr (lit "123 Main St, Seattle")))
  /\ snd (step (Settle 0 (Resolved Demo.found)) Sample.dragged)
     = [SetIsGeocoding false; SetIsWithGeocodingError false;
        OnChange (lit "address")
          (Some (JStr (lit "123 Main St, Seattle")))].
Proof.
  assert (Hr : reachable Sample.dragged)
    by exact (reachable_step
                (ViewportUpdate (Demo.viewport 2 48 (-121)) true)
                (reachable_mount (Demo.props false))).
  split; [exact Hr | ]. split; [reflexivity | ]. split; [reflexivity | ].
  split; [reflexivity | ]. split; [reflexivity | ].
  exact (reverse_result_is_applied_even_while_dragging
           Sample.dragged 0 (lit "address") Demo.found
           (Some (JStr (lit "123 Main St, Seattle")))
           Hr eq_refl eq_refl eq_refl eq_refl).
Defined.

Lemma late_response_of_an_older_request_wins_witness :
  reachable Sample.twoPending
  /\ inflight Sample.twoPending
     = [ReverseGeocode (lit "address"); ReverseGeocode (lit "address")]
  /\ onChanges
       (snd (run [Settle 1 (Resolved Sample.elsewhere);
                  Settle 0 (Resolved Demo.found)] Sample.twoPending))
     = [OnChange (lit "address")
          (Some (JStr (lit "500 Pine St, Seattle")));
        OnChange (lit "address")
          (Some (JStr (lit "123 Main St, Seattle")))].
Proof.
  assert (Hr : reachable Sample.twoPending)
    by exact (reachable_step
                (ViewportUpdate (Demo.viewport 2 48 (-121)) false)
                (reachable_mount (Demo.props false))).
  split; [exact Hr | ]. split; [reflexivity | ].
  exact (late_response_of_an_older_request_wins
           Sample.twoPending 0 1 (lit "address") (lit "address")
           Demo.found Sample.elsewhere
           (Some (JStr (lit "123 Main St, Seattle")))
           (Some (JStr (lit "500 Pine St, Seattle")))
           Hr eq_refl (le_n 1) eq_refl eq_refl
           eq_refl eq_refl eq_refl eq_refl).
Defined.

Lemma first_response_ends_loading_witness :
  reachable Sample.twoPending
  /\ isMounted (state Sample.twoPending) = true
  /\ nth_error (inflight Sample.twoPending) 0
     = Some (ReverseGeocode (lit "address"))
  /\ isGeocoding
       (state (fst (step (Settle 0 (Rejected FetchFailed))
                         Sample.twoPending))) = false
  /\ inflight (fst (step (Settle 0 (Rejected FetchFailed))
                         Sample.twoPending))
     = [ReverseGeocode (lit "address")].
Proof.
  assert (Hr : reachable Sample.twoPending)
    by exact (reachable_step
                (ViewportUpdate (Demo.viewport 2 48 (-121)) false)
                (reachable_mount (Demo.props false))).
  pose proof (first_response_ends_loading
                Sample.twoPending 0 (ReverseGeocode (lit "address"))
                (Rejected FetchFailed) Hr eq_refl eq_refl)
    as (H1 & _ & H3).
  split; [exact Hr | ]. split; [reflexivity | ]. split; [reflexivity | ].
  split; [exact H1 | ].
  vm_compute in H3. vm_compute. exact H3.
Defined.

Lemma console_logs_failures_only_witness :
  isMounted Demo.loading = true
  /\ consoleErrors
       (log (settle ForwardGeocode (Rejected FetchFailed) Demo.loading))
     = [ConsoleError (lit "There was an error while geocoding: ")
          FetchFailed]
  /\ consoleErrors
       (log (settle ForwardGeocode (Resolved Sample.noCoordinates)
               Demo.loading))
     = [ConsoleError (lit "There was an error while geocoding: ")
          TypeError]
  /\ consoleErrors
       (log (settle ForwardGeocode (Resolved Demo.notFound) Demo.loading))
     = [].
Proof.
  split; [reflexivity | ].
  split; [exact (proj1 (console_logs_failures_only
                          ForwardGeocode (Rejected FetchFailed)
                          Demo.loading) FetchFailed) | ].
  split.
  - exact (proj2 (console_logs_failures_only
                    ForwardGeocode (Resolved Sample.noCoordinates)
                    Demo.loading) eq_refl).
  - exact (proj2 (console_logs_failures_only
                    ForwardGeocode (Resolved Demo.notFound)
                    Demo.loading) eq_refl).
Defined.

Lemma continuation_throws_on_null_or_missing_coordinates_witness :
  isMounted Demo.loading = true
  /\ (exists e,
        result (forwardThen Sample.noCoordinates Demo.loading) = inl e)
  /\ (exists e, result (reverseThen (lit "address") JNull Demo.loading)
                = inl e)
  /\ ~ (exists e,
          result (reverseThen (lit "address") Sample.noCoordinates
                    Demo.loading) = inl e).
Proof.
  pose proof (continuation_throws_on_null_or_missing_coordinates
                Sample.noCoordinates Demo.loading) as (H1 & H2 & _).
  pose proof (continuation_throws_on_null_or_missing_coordinates
                JNull Demo.loading) as (H3 & _).
  split; [reflexivity | ]. split; [ | split].
  - apply (proj2 (H2 eq_refl)). right.
    exists (Some (JObj [(lit "type", JStr (lit "Point"))])).
    split; [vm_compute; reflexivity | ].
    split; vm_compute; reflexivity.
  - exact (proj2 (H3 (lit "address")) eq_refl).
  - intros H. apply (proj1 (H1 (lit "address"))) in H.
    discriminate H.
Defined.

Lemma missing_or_empty_features_show_not_found_witness :
  isMounted Demo.loading = true
  /\ member (lit "features") [(lit "features", JArr [])] = Some (JArr [])
  /\ settle (ReverseGeocode (lit "address")) (Resolved Demo.notFound)
       Demo.loading
     = (inr tt, errorShown,
        [SetIsGeocoding false; SetIsWithGeocodingError true]).
Proof.
  split; [reflexivity | ]. split; [reflexivity | ].
  exact (missing_or_empty_features_show_not_found
           (ReverseGeocode (lit "address")) [(lit "features", JArr [])]
           Demo.loading eq_refl (or_intror (or_intror eq_refl))).
Defined.

Lemma short_coordinates_are_not_checked_witness :
  isMounted Demo.loading = true
  /\ featureCoordinates Sample.shortCoordinates = Some [JNum (-122)%Z]
  /\ settle ForwardGeocode (Resolved Sample.shortCoordinates) Demo.loading
     = (inr tt, withFlags Demo.loading false false,
        [SetIsGeocoding false; SetIsWithGeocodingError false;
         Emit (lit "setMapViewport")
           {| payloadLatitude := None;
              payloadLongitude := Some (JNum (-122)%Z);
              zoom := 14;
              transitionDuration := 1000 |}]).
Proof.
  split; [reflexivity | ]. split; [reflexivity | ].
  exact (short_coordinates_are_not_checked
           Sample.shortCoordinates [JNum (-122)%Z] Demo.loading
           eq_refl eq_refl (le_n 2)).
Defined.

Lemma banner_is_cleared_within_5000ms_witness :
  reachable Demo.failedTwice
  /\ isMounted (state Demo.failedTwice) = true
  /\ isWithGeocodingError (state Demo.failedTwice) = true
  /\ timersDueSoon Demo.failedTwice
  /\ timers Demo.failedTwice <> []
  /\ isWithGeocodingError
       (state (fst (step (Advance 5000) Demo.failedTwice))) = false.
Proof.
  assert (Hr : reachable Demo.failedTwice)
    by exact (reachable_step (Settle 0 (Resolved Demo.notFound))
                (reachable_step Blur
                   (reachable_step (Advance 1000)
                      (reachable_step (Settle 0 (Resolved Demo.notFound))
                         (reachable_step Blur
                            (reachable_mount (Demo.props true))))))).
  pose proof (banner_is_cleared_within_5000ms Demo.failedTwice Hr)
    as (H1 & H2).
  assert (Hm : isMounted (state Demo.failedTwice) = true)
    by (vm_compute; reflexivity).
  assert (He : isWithGeocodingError (state Demo.failedTwice) = true)
    by (vm_compute; reflexivity).
  split; [exact Hr | ]. split; [exact Hm | ]. split; [exact He | ].
  split; [exact H1 | ]. exact (H2 Hm He).
Defined.

Lemma nothing_but_console_and_timer_after_teardown_witness :
  isMounted (state Demo.unmountedWithBanner) = false
  /\ snd (run [Settle 0 (Resolved Demo.found); Advance 5000; Blur;
               InputChange (lit "x")] Demo.unmountedWithBanner)
     = [SetIsWithGeocodingError false]
  /\ afterlife
       (snd (run [Settle 0 (Resolved Demo.found); Advance 5000; Blur;
                  InputChange (lit "x")] Demo.unmountedWithBanner)) = true.
Proof.
  assert (Hm : isMounted (state Demo.unmountedWithBanner) = false)
    by (vm_compute; reflexivity).
  split; [exact Hm | ]. split; [vm_compute; reflexivity | ].
  exact (proj1 (nothing_but_console_and_timer_after_teardown
                  [Settle 0 (Resolved Demo.found); Advance 5000; Blur;
                   InputChange (lit "x")]
                  Demo.unmountedWithBanner Hm)).
Defined.

Lemma viewport_update_requests_witness :
  reachable (Demo.mounted true)
  /\ isMounted (state (Demo.mounted true)) = true
  /\ snd (step (ViewportUpdate (Demo.viewport 2 48 (-121)) false)
               (Demo.mounted true))
     = [SetIsGeocoding true;
        Fetch GET
          (lit "https://api.mapbox.com/geocoding/v5/mapbox.places/-121,48.json?access_token=pk.test")
          (ReverseGeocode (lit "address"))]
  /\ snd (step (ViewportUpdate (Demo.viewport 2 48 (-121)) true)
               (Demo.mounted true)) = [].
Proof.
  pose proof (viewport_update_requests
                (Demo.mounted true) (Demo.viewport 2 48 (-121)) false
                (reachable_mount (Demo.props true)) eq_refl) as H1.
  pose proof (viewport_update_requests
                (Demo.mounted true) (Demo.viewport 2 48 (-121)) true
                (reachable_mount (Demo.props true)) eq_refl) as H2.
  split; [exact (reachable_mount (Demo.props true)) | ].
  split; [reflexivity | ].
  split; [vm_compute in H1; vm_compute; exact H1 | ].
  vm_compute in H2. vm_compute. exact H2.
Defined.

Lemma typing_only_reports_to_the_form_witness :
  reachable Demo.searching
  /\ isMounted (state Demo.searching) = true
  /\ step (InputChange (lit "123 Main Street")) Demo.searching
     = (Demo.searching,
        [OnChange (lit "address") (Some (JStr (lit "123 Main Street")))]).
Proof.
  assert (Hr : reachable Demo.searching)
    by exact (reachable_step Blur (reachable_mount (Demo.props true))).
  split; [exact Hr | ]. split; [reflexivity | ].
  exact (typing_only_reports_to_the_form
           Demo.searching (lit "123 Main Street") Hr eq_refl).
Defined.

Lemma renders_come_to_rest_witness :
  reachable Demo.failedOnce
  /\ commit Demo.failedOnce = (Demo.failedOnce, [])
  /\ commit (fst (flush (withProps Demo.failedOnce (Demo.props false))))
     = (fst (flush (withProps Demo.failedOnce (Demo.props false))), []).
Proof.
  assert (Hr : reachable Demo.failedOnce)
    by exact (reachable_step (Settle 0 (Resolved Demo.notFound))
                (reachable_step Blur (reachable_mount (Demo.props true)))).
  split; [exact Hr | ].
  split; [exact (proj2 (renders_come_to_rest Demo.failedOnce) Hr) | ].
  exact (proj1 (renders_come_to_rest
                  (withProps Demo.failedOnce (Demo.props false)))).
Defined.

Lemma calls_have_one_cause_witness :
  calls (snd (step (Settle 0 (Resolved Demo.found)) Demo.searching)) <> []
  /\ isMounted (state Demo.searching) = true
  /\ classify ForwardGeocode (Resolved Demo.found) = Found.
Proof.
  assert (H : calls (snd (step (Settle 0 (Resolved Demo.found))
                            Demo.searching)) <> [])
    by (vm_compute; discriminate).
  split; [exact H | ].
  destruct (calls_have_one_cause
              (Settle 0 (Resolved Demo.found)) Demo.searching H)
    as [Hm _].
  split; [exact Hm | ]. vm_compute. reflexivity.
Defined.
